(** * piston/authentication.py: authentication handlers and OAuth endpoints

    A shallow embedding of [piston/authentication.py] (Python 2, Django).
    Python values become Rocq data, the request object and the database
    become an explicit state, and a Python exception becomes the [Raise]
    branch of a result type. *)

From Stdlib Require Import ZArith Ascii String List Bool Lia.
From stdpp Require Import base option list gmap strings pretty.

Set Default Proof Using "Type".

Local Open Scope Z_scope.

(** ** Python strings

    A Python 2 [str] is a sequence of bytes: Rocq's [string]. *)

Module Py.

(** The double quote character, [chr(34)]. *)
Definition dquote : string := String (ascii_of_nat 34) EmptyString.

(** [s.lower()] in the C locale: only [A-Z] change. *)
Definition lower_char (c : ascii) : ascii :=
  let n := nat_of_ascii c in
  if (Nat.leb 65 n && Nat.leb n 90)%bool then ascii_of_nat (n + 32) else c.

Fixpoint lower (s : string) : string :=
  match s with
  | EmptyString => EmptyString
  | String c s' => String (lower_char c) (lower s')
  end.

(** [s.lstrip()], [s.rstrip()] and [s.strip()] with no argument: white
    space is dropped at the ends. *)
Fixpoint lstrip (s : string) : string :=
  match s with
  | String c s' => if Ascii.is_space c then lstrip s' else s
  | EmptyString => EmptyString
  end.

Fixpoint rstrip (s : string) : string :=
  match s with
  | EmptyString => EmptyString
  | String c s' =>
      match rstrip s' with
      | EmptyString => if Ascii.is_space c then EmptyString else String c EmptyString
      | r => String c r
      end
  end.

Definition strip (s : string) : string := rstrip (lstrip s).

(** [s.split(sep, 1)] for a separator of one character: the list has one
    element when [sep] does not occur and two when it does (the text
    before the first occurrence and the text after it). *)
Fixpoint split1_go (sep : ascii) (acc : string) (s : string) : list string :=
  match s with
  | EmptyString => [String.rev acc]
  | String c s' =>
      if Ascii.eqb c sep then [String.rev acc; s']
      else split1_go sep (String c acc) s'
  end.

Definition split1 (sep : ascii) (s : string) : list string :=
  split1_go sep EmptyString s.

(** [p in s] for two strings: [p] occurs in [s] as a substring. *)
Fixpoint contains (p s : string) : bool :=
  String.prefix p s ||
  match s with
  | EmptyString => false
  | String _ s' => contains p s'
  end.

(** [s.split(sep)] for a separator of one character: every occurrence
    splits. *)
Fixpoint split_go (sep : ascii) (acc : string) (s : string) : list string :=
  match s with
  | EmptyString => [String.rev acc]
  | String c s' =>
      if Ascii.eqb c sep then String.rev acc :: split_go sep EmptyString s'
      else split_go sep (String c acc) s'
  end.

Definition split (sep : ascii) (s : string) : list string :=
  split_go sep EmptyString s.

(** [sorted(l)] under the order [leb]. *)
Fixpoint insert_sorted {A} (leb : A -> A -> bool) (x : A) (l : list A)
  : list A :=
  match l with
  | [] => [x]
  | y :: l' => if leb x y then x :: l else y :: insert_sorted leb x l'
  end.

Definition sorted {A} (leb : A -> A -> bool) (l : list A) : list A :=
  foldr (insert_sorted leb) [] l.

End Py.

(** The order of Python on pairs of strings: by the first component,
    then by the second. *)
Definition pair_leb (a b : string * string) : bool :=
  match String.compare a.1 b.1 with
  | Lt => true
  | Eq => String.leb a.2 b.2
  | Gt => false
  end.

(** [p] occurs in [s]: some text, then [p], then some text. *)
Definition occurs_in (p s : string) : Prop :=
  exists pre post, s = pre +:+ p +:+ post.

(** ** Exceptions and results *)

(** A Python 2 string is a byte string ([str]) or text ([unicode]).  Text
    is held as the bytes of its UTF-8 form.  A byte string stands where a
    string of either kind is expected. *)
Inductive basestring : Type :=
  | Str (bytes : string)
  | Unicode (utf8 : string).

Coercion Str : string >-> basestring.

(** The bytes a string holds. *)
Definition raw (s : basestring) : string :=
  match s with
  | Str bytes => bytes
  | Unicode utf8 => utf8
  end.

(** The exceptions this module can see.  [OAuthError] carries its message;
    the others are the built-in errors raised by the string operations of
    [is_authenticated], by attribute and call errors and by the implicit
    decoding of a byte string. *)
Inductive exn : Type :=
  | OAuthError (message : basestring)
  | ValueError (detail : string)
  | BinasciiError (detail : string)
  | AttributeError (detail : string)
  | TypeError (detail : string)
  | OtherError (detail : string)
  | UnicodeDecodeError (detail : string).

Inductive result (A : Type) : Type :=
  | Ok (a : A)
  | Raise (e : exn).
Arguments Ok {A} a.
Arguments Raise {A} e.

Definition is_Ok {A} (r : result A) : bool :=
  match r with Ok _ => true | Raise _ => false end.

(** [(a, b) = xs]: unpacking a sequence into two names. *)
Definition unpack2 (xs : list string) : result (string * string) :=
  match xs with
  | [a; b] => Ok (a, b)
  | [] | [_] => Raise (ValueError "need more than 1 value to unpack")
  | _ => Raise (ValueError "too many values to unpack")
  end.

(** ** The base64 codec

    [s.decode('base64')] is [binascii.a2b_base64]: characters outside the
    alphabet are skipped, a pad character ends the input once a quad is
    under way, and bits left over at the end raise [binascii.Error]. *)

Module Base64.

(** [table_a2b_base64]: the value of a character of the alphabet; the
    pad character [=] is in the table with value 0. *)
Definition table (c : ascii) : option Z :=
  let n := Z.of_nat (nat_of_ascii c) in
  if (65 <=? n) && (n <=? 90) then Some (n - 65)
  else if (97 <=? n) && (n <=? 122) then Some (n - 71)
  else if (48 <=? n) && (n <=? 57) then Some (n + 4)
  else if n =? 43 then Some 62
  else if n =? 47 then Some 63
  else if n =? 61 then Some 0
  else None.

Definition PAD : ascii := "="%char.

(** [binascii_find_valid(s, slen, num)]: the [(num+1)]-th character of
    [s] that is in the table. *)
Fixpoint find_valid (s : string) (num : nat) : option ascii :=
  match s with
  | EmptyString => None
  | String c s' =>
      if bool_decide (is_Some (table c)) then
        match num with
        | O => Some c
        | S num' => find_valid s' num'
        end
      else find_valid s' num
  end.

Definition skipped (c : ascii) : bool :=
  let n := Z.of_nat (nat_of_ascii c) in
  (127 <? n) || (n =? 13) || (n =? 10) || (n =? 32).

(** The decoding loop.  The state is [quad_pos], [leftchar], [leftbits]
    and the output so far (last byte first); the result is the final
    [leftbits] and the output. *)
Fixpoint loop (s : string) (quad_pos leftchar leftbits : Z) (out : string)
  : Z * string :=
  match s with
  | EmptyString => (leftbits, out)
  | String c s' =>
      if skipped c then loop s' quad_pos leftchar leftbits out
      else if Ascii.eqb c PAD then
        if (quad_pos <? 2) ||
           ((quad_pos =? 2) &&
            negb (bool_decide (find_valid s 1 = Some PAD)))
        then loop s' quad_pos leftchar leftbits out
        else (0, out)
      else
        match table c with
        | None => loop s' quad_pos leftchar leftbits out
        | Some v =>
            let quad_pos := Z.land (quad_pos + 1) 3 in
            let leftchar := Z.lor (Z.shiftl leftchar 6) v in
            let leftbits := leftbits + 6 in
            if 8 <=? leftbits then
              let leftbits := leftbits - 8 in
              let byte := Z.land (Z.shiftr leftchar leftbits) 255 in
              loop s' quad_pos
                (Z.land leftchar (Z.shiftl 1 leftbits - 1)) leftbits
                (String (ascii_of_nat (Z.to_nat byte)) out)
            else loop s' quad_pos leftchar leftbits out
        end
  end.

Definition decode (s : string) : result string :=
  let '(leftbits, out) := loop s 0 0 0 EmptyString in
  if leftbits =? 0 then Ok (String.rev out)
  else Raise (BinasciiError "Incorrect padding").

End Base64.

(** [int(s)] on a byte string: white space is dropped at both ends and
    after the sign that may lead, and the rest must be a non-empty run
    of decimal digits; anything else raises [ValueError]. *)
Fixpoint int_digits (s : string) (acc : Z) : option Z :=
  match s with
  | EmptyString => Some acc
  | String c s' =>
      match Ascii.is_nat c with
      | Some d => int_digits s' (10 * acc + Z.of_nat d)
      | None => None
      end
  end.

Definition decimal_int (s : string) : result Z :=
  let t := Py.strip s in
  let '(sign, body) :=
    match t with
    | String "-"%char r => (-1, Py.lstrip r)
    | String "+"%char r => (1, Py.lstrip r)
    | _ => (1, t)
    end in
  match body with
  | EmptyString => Raise (ValueError "invalid literal for int()")
  | _ =>
      match int_digits body 0 with
      | Some n => Ok (sign * n)
      | None => Raise (ValueError "invalid literal for int()")
      end
  end.

(** ** A state and exception monad

    A Python function that mutates objects and may raise is a function
    from the state before to a result and the state after.  The state
    survives an exception: what was assigned before the [raise] stays
    assigned. *)

Definition M (S A : Type) : Type := S -> result A * S.

Definition ret {S A} (a : A) : M S A := fun s => (Ok a, s).

Definition raise {S A} (e : exn) : M S A := fun s => (Raise e, s).

Definition bind {S A B} (c : M S A) (k : A -> M S B) : M S B :=
  fun s =>
    match c s with
    | (Ok a, s') => k a s'
    | (Raise e, s') => (Raise e, s')
    end.

Notation "x <- c ;; k" := (bind c (fun x => k))
  (at level 100, c at next level, right associativity).
Notation "c ;;; k" := (bind c (fun _ => k))
  (at level 100, right associativity).

Definition get {S} : M S S := fun s => (Ok s, s).

Definition modify {S} (f : S -> S) : M S unit := fun s => (Ok tt, f s).

(** A result computed without touching the state. *)
Definition lift {S A} (r : result A) : M S A := fun s => (r, s).

(** [try: c  except oauth.OAuthError, err: h(err.message)]: only an
    [OAuthError] is handled, every other exception goes on. *)
Definition try_except_OAuthError {S A} (c : M S A) (h : basestring -> M S A)
  : M S A :=
  fun s =>
    match c s with
    | (Raise (OAuthError message), s') => h message s'
    | r => r
    end.

(** [try: c  except: h]: a bare [except] handles every exception. *)
Definition try_except_all {S A} (c : M S A) (h : M S A) : M S A :=
  fun s =>
    match c s with
    | (Raise _, s') => h s'
    | r => r
    end.

(** ** Django's objects, at their interface *)

Record User : Type := { user_id : Z; username : string }.

(** The values [request.user] and a credential check can take: [None],
    a boolean, a [User] or an [AnonymousUser]. *)
Inductive pyval : Type :=
  | PyNone
  | PyBool (b : bool)
  | PyUser (u : User)
  | PyAnonymousUser.

(** Truth value: [None] and [False] are false, objects are true. *)
Definition truthy (v : pyval) : bool :=
  match v with
  | PyNone => false
  | PyBool b => b
  | PyUser _ | PyAnonymousUser => true
  end.

(** [a or b]. *)
Definition py_or (a b : pyval) : pyval := if truthy a then a else b.

(** [a == b].  Two users are equal when their primary keys are, and
    [AnonymousUser.__eq__] answers whether the other is an
    [AnonymousUser] too. *)
Definition py_eq (a b : pyval) : bool :=
  match a, b with
  | PyNone, PyNone => true
  | PyBool x, PyBool y => Bool.eqb x y
  | PyUser u, PyUser v => user_id u =? user_id v
  | PyAnonymousUser, PyAnonymousUser => true
  | _, _ => false
  end.

(** [a in (x, y, ...)]. *)
Definition py_in (a : pyval) (xs : list pyval) : bool := existsb (py_eq a) xs.

(** [user.is_authenticated()]. *)
Definition user_is_authenticated (v : pyval) : bool :=
  match v with PyUser _ => true | _ => false end.

Record HttpRequest : Type := {
  method : string;
  absolute_uri : string;
  META : gmap string string;
  GET : gmap string string;
  POST : gmap string string;
  environ : gmap string string;
  session : gmap string string;
  user : pyval;
  throttle_extra : option Z
}.

Definition set_user (v : pyval) (r : HttpRequest) : HttpRequest :=
  {| method := method r; absolute_uri := absolute_uri r; META := META r;
     GET := GET r; POST := POST r; environ := environ r;
     session := session r; user := v; throttle_extra := throttle_extra r |}.

Definition set_throttle_extra (x : Z) (r : HttpRequest) : HttpRequest :=
  {| method := method r; absolute_uri := absolute_uri r; META := META r;
     GET := GET r; POST := POST r; environ := environ r;
     session := session r; user := user r; throttle_extra := Some x |}.

Definition set_session (k v : string) (r : HttpRequest) : HttpRequest :=
  {| method := method r; absolute_uri := absolute_uri r; META := META r;
     GET := GET r; POST := POST r; environ := environ r;
     session := <[k := v]> (session r); user := user r;
     throttle_extra := throttle_extra r |}.

(** [request.REQUEST]: [POST] first, then [GET]. *)
Definition REQUEST (r : HttpRequest) : gmap string string := POST r ∪ GET r.

Record HttpResponse : Type := {
  status_code : Z;
  content : string;
  headers : gmap string string
}.

(** [HttpResponse(content)]: status 200 and the default content type. *)
Definition HttpResponse_new (body : string) : HttpResponse :=
  {| status_code := 200; content := body;
     headers := {[ "Content-Type" := "text/html; charset=utf-8" ]} |}.

(** [response[k] = v]. *)
Definition set_header (k v : string) (r : HttpResponse) : HttpResponse :=
  {| status_code := status_code r; content := content r;
     headers := <[k := v]> (headers r) |}.

Definition set_status (code : Z) (r : HttpResponse) : HttpResponse :=
  {| status_code := code; content := content r; headers := headers r |}.

Definition set_content (body : string) (r : HttpResponse) : HttpResponse :=
  {| status_code := status_code r; content := body; headers := headers r |}.

(** The upper-case hexadecimal digit of a number below 16. *)
Definition hex_digit (n : nat) : ascii :=
  if Nat.ltb n 10 then ascii_of_nat (48 + n) else ascii_of_nat (55 + n).

(** [urllib.quote(s, safe)]: letters, digits, the characters [_.-] and
    those of [safe] stay, every other byte becomes [%XX] with upper-case
    hexadecimal digits. *)
Definition always_safe (c : ascii) : bool :=
  let n := nat_of_ascii c in
  (Nat.leb 48 n && Nat.leb n 57) || (Nat.leb 65 n && Nat.leb n 90) ||
  (Nat.leb 97 n && Nat.leb n 122) ||
  Nat.eqb n 95 || Nat.eqb n 46 || Nat.eqb n 45.

Fixpoint quote (safe : string) (s : string) : string :=
  match s with
  | EmptyString => EmptyString
  | String c s' =>
      if always_safe c || existsb (Ascii.eqb c) (list_ascii_of_string safe)
      then String c (quote safe s')
      else
        let n := nat_of_ascii c in
        String "%"%char
          (String (hex_digit (Nat.div n 16))
             (String (hex_digit (Nat.modulo n 16)) (quote safe s')))
  end.

(** Django's [iri_to_uri(iri)] on a byte string: [urllib.quote] with
    Django's list of safe characters.  The first releases of Django
    leave out the last three of the list, [@], ['] and [~]. *)
Definition iri_to_uri (iri : string) : string :=
  quote "/#%[]=:;$&()+,!?*@'~" iri.

(** [HttpResponseRedirect(redirect_to)]: status 302 and a [Location]
    header that holds [iri_to_uri(redirect_to)]. *)
Definition HttpResponseRedirect (redirect_to : string) : HttpResponse :=
  set_status 302
    (set_header "Location" (iri_to_uri redirect_to)
       (HttpResponse_new EmptyString)).

(** ** [NoAuthentication] *)

Module NoAuthentication.

Definition is_authenticated : M HttpRequest bool := ret true.

End NoAuthentication.

(** ** [django_auth]

    The user table stands for [User.objects]: [get(username=...)] is a
    lookup by user name ([None] is [User.DoesNotExist]) and every account
    has its own password check. *)

Record Account : Type := {
  account_user : User;
  check_password : string -> bool
}.

Definition django_auth (users : gmap string Account)
    (username password : string) : pyval :=
  match users !! username with
  | Some account =>
      if check_password account password then PyUser (account_user account)
      else PyBool false
  | None => PyBool false
  end.

(** ** [HttpBasicAuthentication] *)

Module HttpBasicAuthentication.

Record t : Type := {
  auth_func : string -> string -> pyval;
  realm : string
}.

(** [__init__(self, auth_func=django_auth, realm='API')]: an argument
    left out is [None] here. *)
Definition init (users : gmap string Account)
    (auth_func : option (string -> string -> pyval))
    (realm : option string) : t :=
  {| auth_func := default (django_auth users) auth_func;
     realm := default "API" realm |}.

Definition is_authenticated (self : t) : M HttpRequest bool :=
  request <- get ;;
  match META request !! "HTTP_AUTHORIZATION" with
  | None | Some EmptyString => ret false
  | Some auth_string =>
      p <- lift (unpack2 (Py.split1 " " auth_string)) ;;
      let '(authmeth, auth) := p in
      if negb (String.eqb (Py.lower authmeth) "basic") then ret false
      else
        auth <- lift (Base64.decode (Py.strip auth)) ;;
        p <- lift (unpack2 (Py.split1 ":" auth)) ;;
        let '(username, password) := p in
        modify (set_user
                  (py_or (auth_func self username password)
                     PyAnonymousUser)) ;;;
        request <- get ;;
        ret (negb (py_in (user request) [PyBool false; PyAnonymousUser]))
  end.

Definition challenge (self : t) : HttpResponse :=
  let resp := HttpResponse_new "Authorization Required" in
  let resp :=
    set_header "WWW-Authenticate"
      ("Basic realm=" +:+ Py.dquote +:+ realm self +:+ Py.dquote) resp in
  set_status 401 resp.

End HttpBasicAuthentication.

(** ** The [oauth] module and the data store

    [piston/oauth.py] and [piston/store.py] lie outside this
    development.  Tokens and consumers are records; the operations of
    [OAuthRequest] and [OAuthServer] are the fields of a class, each with
    the arguments the call sites give it, acting on the database behind
    [DataStore] and free to raise. *)

Record Consumer : Type := {
  consumer_id : Z;
  consumer_key : string;
  consumer_secret : string
}.

Record Token : Type := {
  key : string;
  secret : string;
  token_user : pyval;
  consumer : Consumer
}.

(** An [OAuthServer]: the data store it was built on (a [DataStore]
    holds the request it was given) and the names of the signature
    methods added to it. *)
Record OAuthServer (OAuthRequest : Type) : Type := {
  data_store : OAuthRequest;
  signature_methods : list string
}.
Arguments data_store {OAuthRequest} _.
Arguments signature_methods {OAuthRequest} _.

Definition OAuthServer_new {R} (store : R) : OAuthServer R :=
  {| data_store := store; signature_methods := [] |}.

Definition add_signature_method {R} (name : string) (srv : OAuthServer R)
  : OAuthServer R :=
  {| data_store := data_store srv;
     signature_methods := signature_methods srv ++ [name] |}.

Class OAuthLib : Type := {
  (** The database behind [DataStore]: consumers, tokens and nonces. *)
  DB : Type;
  OAuthRequest : Type;
  (** [OAuthRequest.from_request(http_method, http_url, headers,
      parameters, query_string)]: [None] when the request carries no
      OAuth parameters. *)
  from_request :
    string -> string -> gmap string string -> gmap string string -> string ->
    result (option OAuthRequest);
  get_normalized_parameters : OAuthRequest -> string;
  fetch_request_token :
    OAuthServer OAuthRequest -> OAuthRequest -> M DB Token;
  fetch_access_token :
    OAuthServer OAuthRequest -> OAuthRequest -> M DB Token;
  authorize_token :
    OAuthServer OAuthRequest -> Token -> pyval -> M DB Token;
  (** [verify_request] returns [(consumer, token, parameters)]; a
      component may be [None]. *)
  verify_request :
    OAuthServer OAuthRequest -> OAuthRequest ->
    M DB (option Consumer * option Token * gmap string string);
  get_callback : OAuthServer OAuthRequest -> OAuthRequest -> M DB string;
  (** [token.to_string(only_key=True)]: the text that carries the token
      to the callback URL. *)
  to_string_only_key : Token -> string
}.

(** Percent-encoding of a parameter value: unreserved characters stay,
    every other byte becomes [%XX]. *)
Definition unreserved (c : ascii) : bool :=
  let n := nat_of_ascii c in
  (Nat.leb 48 n && Nat.leb n 57) || (Nat.leb 65 n && Nat.leb n 90) ||
  (Nat.leb 97 n && Nat.leb n 122) ||
  Nat.eqb n 45 || Nat.eqb n 46 || Nat.eqb n 95 || Nat.eqb n 126.

Fixpoint percent_encode (s : string) : string :=
  match s with
  | EmptyString => EmptyString
  | String c s' =>
      if unreserved c then String c (percent_encode s')
      else
        let n := nat_of_ascii c in
        String "%"%char
          (String (hex_digit (Nat.div n 16))
             (String (hex_digit (Nat.modulo n 16)) (percent_encode s')))
  end.

(** Modelled from the spec: [OAuthToken.to_string] of the absent [oauth]
    module.  The token travels as an urlencoded body of [key=value]
    pairs, [oauth_token=...&oauth_token_secret=...].  The spec has no
    word on the form with [only_key]: it is left to the library. *)
Definition to_string {oauth_lib : OAuthLib} (token : Token) (only_key : bool)
  : string :=
  if only_key then to_string_only_key token
  else "oauth_token=" +:+ percent_encode (key token) +:+
       "&oauth_token_secret=" +:+ percent_encode (secret token).

(** Modelled from the spec: [oauth.build_authenticate_header] of the
    absent [oauth] module.  A failure answers with the [WWW-Authenticate]
    header of the scheme, here [OAuth realm="<realm>"]. *)
Definition build_authenticate_header (realm : string) : gmap string string :=
  {[ "WWW-Authenticate" :=
       "OAuth realm=" +:+ Py.dquote +:+ realm +:+ Py.dquote ]}.

(** [for k, v in header.iteritems(): response[k] = v]. *)
Definition set_headers (header : gmap string string) (response : HttpResponse)
  : HttpResponse :=
  map_fold set_header response header.

(** Every byte is below 128. *)
Definition is_ascii (s : string) : bool :=
  forallb (fun c => Nat.ltb (nat_of_ascii c) 128) (list_ascii_of_string s).

(** [message.encode('utf-8')].  Text encodes to the bytes of its UTF-8
    form.  A byte string is first decoded with the default codec, ASCII:
    with a byte above 127 that raises [UnicodeDecodeError], and
    otherwise the string is its own encoding. *)
Definition encode_utf8 (message : basestring) : result string :=
  match message with
  | Unicode utf8 => Ok utf8
  | Str bytes =>
      if is_ascii bytes then Ok bytes
      else Raise (UnicodeDecodeError "'ascii' codec can't decode byte")
  end.

(** The messages [encode] accepts: text, and the byte strings of ASCII
    characters. *)
Definition encodable (message : basestring) : bool :=
  match message with
  | Unicode _ => true
  | Str bytes => is_ascii bytes
  end.

(** [send_oauth_error(err)], given the message of [err]. *)
Definition send_oauth_error (message : basestring) : result HttpResponse :=
  match encode_utf8 message with
  | Raise e => Raise e
  | Ok body =>
      let response := HttpResponse_new body in
      let response := set_status 401 response in
      let realm := "OAuth" in
      let header := build_authenticate_header realm in
      Ok (set_headers header response)
  end.

(** The response built when the module is loaded; its message is a
    literal of ASCII characters, so the call returns ([Raise] would
    stop the import of the module). *)
Definition INVALID_PARAMS_RESPONSE : HttpResponse :=
  match send_oauth_error (Str "Invalid request parameters.") with
  | Ok response => response
  | Raise _ => HttpResponse_new EmptyString
  end.

(** ** The world of a request

    The request object, the database behind the data store, and what was
    printed to standard output. *)

Record World (D : Type) : Type := {
  request : HttpRequest;
  db : D;
  stdout : list HttpResponse
}.
Arguments request {D} _.
Arguments db {D} _.
Arguments stdout {D} _.

(** The world with another database. *)
Definition with_db {D} (d : D) (w : World D) : World D :=
  {| request := request w; db := d; stdout := stdout w |}.

(** The world with another request. *)
Definition with_request {D} (r : HttpRequest) (w : World D) : World D :=
  {| request := r; db := db w; stdout := stdout w |}.

(** [callback] after the bare [except] around [get_callback]: [None]
    when the call raised. *)
Definition callback_of (rc : result string) : option string :=
  match rc with Ok c => Some c | Raise _ => None end.

(** The site: Django's settings and what the framework resolves for this
    module ([get_callable], [login_required], the template loader). *)
Class Site {oauth_lib : OAuthLib} : Type := {
  settings : gmap string string;
  (** [get_callable(name)(request, token, callback, params)]. *)
  call_auth_view :
    string -> Token -> option string -> string -> M (World DB) HttpResponse;
  (** [get_callable(name)(request, token)]. *)
  call_callback_view : string -> Token -> M (World DB) HttpResponse;
  (** The redirect to the login page that [login_required] answers with. *)
  login_redirect : HttpRequest -> HttpResponse;
  (** [loader.render_to_string(template, context)]. *)
  render_to_string : string -> gmap string string -> string;
  (** [int(v)] on a value of [request.POST].  Such a value is text, on
      which [int] also reads the decimal digits and the white space of
      Unicode; on ASCII text it is [decimal_int]. *)
  py_int : string -> result Z
}.

Section Endpoints.

Context {oauth_lib : OAuthLib} {site : Site}.

Definition get_request : M (World DB) HttpRequest :=
  fun w => (Ok (request w), w).

Definition on_request {A} (c : M HttpRequest A) : M (World DB) A :=
  fun w =>
    let '(r, request') := c (request w) in
    (r, {| request := request'; db := db w; stdout := stdout w |}).

Definition on_db {A} (c : M DB A) : M (World DB) A :=
  fun w =>
    let '(r, db') := c (db w) in
    (r, {| request := request w; db := db'; stdout := stdout w |}).

(** [print response]. *)
Definition print (response : HttpResponse) : M (World DB) unit :=
  modify (fun w =>
    {| request := request w; db := db w;
       stdout := stdout w ++ [response] |}).

(** An argument that is [None] where the library needs an object: the
    first attribute access fails. *)
Definition not_None {S A} (what : string) (o : option A) : M S A :=
  match o with
  | Some a => ret a
  | None => raise (AttributeError what)
  end.

Definition initialize_server_request
  : M (World DB) (option (OAuthServer OAuthRequest) * option OAuthRequest) :=
  request <- get_request ;;
  oauth_request <-
    lift (from_request (method request) (absolute_uri request)
            (META request) (REQUEST request)
            (default EmptyString (environ request !! "QUERY_STRING"))) ;;
  match oauth_request with
  | Some r =>
      let oauth_server := OAuthServer_new r in
      let oauth_server := add_signature_method "PLAINTEXT" oauth_server in
      let oauth_server := add_signature_method "HMAC-SHA1" oauth_server in
      ret (Some oauth_server, oauth_request)
  | None => ret (None, oauth_request)
  end.

Definition oauth_request_token : M (World DB) HttpResponse :=
  p <- initialize_server_request ;;
  let '(oauth_server, oauth_request) := p in
  match oauth_server with
  | None => ret INVALID_PARAMS_RESPONSE
  | Some oauth_server =>
      try_except_OAuthError
        (oauth_request <- not_None "oauth_request" oauth_request ;;
         token <- on_db (fetch_request_token oauth_server oauth_request) ;;
         ret (HttpResponse_new (to_string token false)))
        (fun message => lift (send_oauth_error message))
  end.

(** [oauth_auth_view]: [%s] of the token is its string form, of a
    [None] callback the word [None]. *)
Definition oauth_auth_view (token : Token) (callback : option string)
    (params : string) : HttpResponse :=
  HttpResponse_new
    ("Just a fake view for auth. " +:+ to_string token false +:+ ", " +:+
     default "None" callback +:+ ", " +:+ params).

(** [@login_required]: a request whose user is not logged in is
    answered by the redirect and never reaches the view. *)
Definition login_required (view : M (World DB) (option HttpResponse))
  : M (World DB) (option HttpResponse) :=
  request <- get_request ;;
  if user_is_authenticated (user request) then view
  else ret (Some (login_redirect request)).

(** The body of [oauth_user_auth], under the decorator.  A Python
    function that ends without [return] gives [None]. *)
Definition oauth_user_auth_view : M (World DB) (option HttpResponse) :=
  p <- initialize_server_request ;;
  let '(oauth_server, oauth_request) := p in
  match oauth_request with
  | None => ret (Some INVALID_PARAMS_RESPONSE)
  | Some oauth_request =>
      oauth_server <- not_None "oauth_server" oauth_server ;;
      fetched <-
        try_except_OAuthError
          (token <- on_db (fetch_request_token oauth_server oauth_request) ;;
           ret (inl token))
          (fun message =>
             response <- lift (send_oauth_error message) ;;
             ret (inr response)) ;;
      match fetched with
      | inr response => ret (Some response)
      | inl token =>
          callback <-
            try_except_all
              (c <- on_db (get_callback oauth_server oauth_request) ;;
               ret (Some c))
              (ret None) ;;
          request <- get_request ;;
          if String.eqb (method request) "GET" then
            on_request (modify (set_session "oauth" (key token))) ;;;
            let params := get_normalized_parameters oauth_request in
            let oauth_view :=
              default "oauth_auth_view" (settings !! "OAUTH_AUTH_VIEW") in
            response <- call_auth_view oauth_view token callback params ;;
            ret (Some response)
          else if String.eqb (method request) "POST" then
            if String.eqb (default EmptyString (session request !! "oauth"))
                 (key token)
            then
              on_request (modify (set_session "oauth" EmptyString)) ;;;
              response <-
                try_except_OAuthError
                  (authorize_access <-
                     lift (py_int (default "0"
                                     (POST request !! "authorize_access"))) ;;
                   p <-
                     (if negb (authorize_access =? 0) then
                        request <- get_request ;;
                        token <-
                          on_db (authorize_token oauth_server token
                                   (user request)) ;;
                        ret (token, "?" +:+ to_string token true)
                      else
                        ret (token, "?error=Access not granted by user.")) ;;
                   let '(token, args) := p in
                   match callback with
                   | None | Some EmptyString =>
                       callback <-
                         match settings !! "OAUTH_CALLBACK_VIEW" with
                         | Some v => ret v
                         | None => raise (AttributeError "OAUTH_CALLBACK_VIEW")
                         end ;;
                       call_callback_view callback token
                   | Some callback =>
                       ret (HttpResponseRedirect (callback +:+ args))
                   end)
                  (fun message => lift (send_oauth_error message)) ;;
              ret (Some response)
            else ret (Some (HttpResponse_new "Action not allowed."))
          else ret None
      end
  end.

Definition oauth_user_auth : M (World DB) (option HttpResponse) :=
  login_required oauth_user_auth_view.

Definition oauth_access_token : M (World DB) HttpResponse :=
  p <- initialize_server_request ;;
  let '(oauth_server, oauth_request) := p in
  match oauth_request with
  | None => ret INVALID_PARAMS_RESPONSE
  | Some oauth_request =>
      try_except_OAuthError
        (oauth_server <- not_None "oauth_server" oauth_server ;;
         token <- on_db (fetch_access_token oauth_server oauth_request) ;;
         ret (HttpResponse_new (to_string token false)))
        (fun message => lift (send_oauth_error message))
  end.

End Endpoints.

(** ** [OAuthAuthentication] *)

Module OAuthAuthentication.

Record t : Type := {
  realm : string;
  builder : string -> gmap string string
}.

(** [__init__(self, realm='API')]. *)
Definition init (realm : option string) : t :=
  {| realm := default "API" realm; builder := build_authenticate_header |}.

Definition must_have : list string :=
  (fun s => "oauth_" +:+ s) <$>
    ["consumer_key"; "token"; "signature";
     "signature_method"; "timestamp"; "nonce"].

(** [is_in] on the raw header: [p in l] is the substring test of
    strings. *)
Definition is_in_str (l : string) : bool :=
  forallb (fun p => Py.contains p l) must_have.

(** [is_in] on [request.REQUEST]: [p in l] is key membership. *)
Definition is_in_dict (l : gmap string string) : bool :=
  forallb (fun p => bool_decide (is_Some (l !! p))) must_have.

Definition is_valid_request (request : HttpRequest) : bool :=
  let auth_params := default EmptyString (META request !! "HTTP_AUTHORIZATION") in
  let req_params := REQUEST request in
  is_in_str auth_params || is_in_dict req_params.

Section Methods.

Context {oauth_lib : OAuthLib} {site : Site}.

Definition validate_token (check_timestamp check_nonce : bool)
  : M (World DB) (option Consumer * option Token * gmap string string) :=
  p <- initialize_server_request ;;
  let '(oauth_server, oauth_request) := p in
  oauth_server <- not_None "verify_request" oauth_server ;;
  oauth_request <- not_None "oauth_request" oauth_request ;;
  on_db (verify_request oauth_server oauth_request).

Definition is_authenticated (self : t) : M (World DB) bool :=
  request <- get_request ;;
  if is_valid_request request then
    validated <-
      try_except_OAuthError
        (r <- validate_token true true ;; ret (Some r))
        (fun message =>
           response <- lift (send_oauth_error message) ;;
           print response ;;; ret None) ;;
    match validated with
    | None => ret false
    | Some (Some _, Some token, _) =>
        on_request (modify (set_user (token_user token))) ;;;
        on_request
          (modify (set_throttle_extra (consumer_id (consumer token)))) ;;;
        ret true
    | Some _ => ret false
    end
  else ret false.

Definition challenge (self : t) : HttpResponse :=
  let response := HttpResponse_new EmptyString in
  let response := set_status 401 response in
  let realm := "API" in
  let response := set_headers (builder self realm) response in
  let tmpl :=
    render_to_string "oauth/challenge.html"
      {[ "MEDIA_URL" := default EmptyString (settings !! "MEDIA_URL") ]} in
  set_content tmpl response.

End Methods.

End OAuthAuthentication.

(** ** The Authorization header as a parameter set

    The spec words of sections 4.1 and 6: a header whose scheme is
    [OAuth] carries comma-separated [key="value"] pairs, the values
    percent-encoded and double-quoted. *)

Module Header.

Definition hex_value (c : ascii) : option nat :=
  let n := nat_of_ascii c in
  if Nat.leb 48 n && Nat.leb n 57 then Some (n - 48)%nat
  else if Nat.leb 65 n && Nat.leb n 70 then Some (n - 55)%nat
  else if Nat.leb 97 n && Nat.leb n 102 then Some (n - 87)%nat
  else None.

Fixpoint percent_decode (s : string) : string :=
  match s with
  | EmptyString => EmptyString
  | String c s1 =>
      if Ascii.eqb c "%" then
        match s1 with
        | String a (String b s3) =>
            match hex_value a, hex_value b with
            | Some x, Some y =>
                String (ascii_of_nat (16 * x + y)) (percent_decode s3)
            | _, _ => String c (percent_decode s1)
            end
        | _ => String c (percent_decode s1)
        end
      else String c (percent_decode s1)
  end.

(** A value without the double quotes around it. *)
Definition unquote (v : string) : string :=
  let drop_front s :=
    match s with
    | String c s' => if Ascii.eqb c (ascii_of_nat 34) then s' else s
    | EmptyString => s
    end in
  String.rev (drop_front (String.rev (drop_front v))).

Definition parse_pair (part : string) : option (string * string) :=
  match Py.split1 "=" (Py.strip part) with
  | [k; v] => Some (k, percent_decode (unquote v))
  | _ => None
  end.

(** The parameters of a header: none unless the scheme is [OAuth]. *)
Definition params (header : string) : gmap string string :=
  match Py.split1 " " (Py.strip header) with
  | [scheme; rest] =>
      if String.eqb scheme "OAuth"
      then list_to_map (omap parse_pair (Py.split "," rest))
      else ∅
  | _ => ∅
  end.

End Header.

(** The pre-check as the spec words it: every required parameter is a
    parameter of the header, or every one is a parameter of the combined
    query and body set. *)
Definition spec_is_valid_request (request : HttpRequest) : bool :=
  OAuthAuthentication.is_in_dict
    (Header.params (default EmptyString (META request !! "HTTP_AUTHORIZATION")))
  || OAuthAuthentication.is_in_dict (REQUEST request).

(** ** A reference [oauth] server

    Modelled from the spec: the [OAuthRequest], [OAuthServer] and
    [DataStore] of the absent [oauth] and [store] modules, after sections
    3 and 4 of the spec.  The checks run in the order the spec gives:
    consumer, timestamp window, nonce, signature method, signature.  It
    is the instance the endpoints are run on in the examples; the
    theorems about the endpoints hold for every instance. *)

Module Reference.

Inductive token_kind : Type := RequestToken | AccessToken.

Inductive token_state : Type := UNAUTHORIZED | AUTHORIZED | CONSUMED.

#[export] Instance token_kind_eq_dec : EqDecision token_kind.
Proof. solve_decision. Defined.

#[export] Instance token_state_eq_dec : EqDecision token_state.
Proof. solve_decision. Defined.

Record StoredToken : Type := {
  stored : Token;
  kind : token_kind;
  state : token_state
}.

Record Store : Type := {
  consumers : list Consumer;
  tokens : list StoredToken;
  nonces : list (string * string * Z * string);
  now : Z;
  skew : Z;
  issued : nat
}.

Record Request : Type := {
  http_method : string;
  http_url : string;
  parameters : gmap string string
}.

Definition from_request (http_method http_url : string)
    (headers parameters : gmap string string) (query_string : string)
  : result (option Request) :=
  let merged :=
    Header.params (default EmptyString (headers !! "HTTP_AUTHORIZATION"))
    ∪ parameters in
  if bool_decide (merged = ∅) then Ok None
  else Ok (Some {| http_method := http_method; http_url := http_url;
                   parameters := merged |}).

Definition get_parameter {S} (req : Request) (name : string) : M S string :=
  match parameters req !! name with
  | Some v => ret v
  | None => raise (OAuthError ("Parameter not found: " +:+ name))
  end.

Definition set_tokens (ts : list StoredToken) (s : Store) : Store :=
  {| consumers := consumers s; tokens := ts; nonces := nonces s;
     now := now s; skew := skew s; issued := issued s |}.

Definition lookup_consumer (k : string) (s : Store) : option Consumer :=
  List.find (fun c => String.eqb (consumer_key c) k) (consumers s).

Definition lookup_token (kd : token_kind) (k : string) (s : Store)
  : option StoredToken :=
  List.find
    (fun t => String.eqb (key (stored t)) k &&
              bool_decide (kind t = kd) &&
              negb (bool_decide (state t = CONSUMED)))
    (tokens s).

(** [record_nonce_if_new]: false when the tuple was recorded before. *)
Definition record_nonce_if_new (n : string * string * Z * string)
  : M Store bool :=
  fun s =>
    if bool_decide (n ∈ nonces s) then (Ok false, s)
    else (Ok true,
          {| consumers := consumers s; tokens := tokens s;
             nonces := n :: nonces s; now := now s; skew := skew s;
             issued := issued s |}).

Section Server.

(** The HMAC-SHA1 signature of a request under a consumer secret and
    a token secret; the digest itself is not modelled. *)
Variable hmac_sha1 : Request -> string -> string -> string.

Definition signature_of (method : string) (req : Request)
    (consumer_secret token_secret : string) : string :=
  if String.eqb method "PLAINTEXT"
  then percent_encode consumer_secret +:+ "&" +:+
       percent_encode token_secret
  else hmac_sha1 req consumer_secret token_secret.

(** The checks every operation runs before it changes a token. *)
Definition check (srv : OAuthServer Request) (req : Request)
    (token_key token_secret : string) : M Store Consumer :=
  ck <- get_parameter req "oauth_consumer_key" ;;
  s <- get ;;
  match lookup_consumer ck s with
  | None => raise (OAuthError "InvalidConsumerError")
  | Some c =>
      ts <- get_parameter req "oauth_timestamp" ;;
      ts <- try_except_all (lift (decimal_int ts))
              (raise (OAuthError "StaleTimestampError")) ;;
      if negb ((now s - skew s <=? ts) && (ts <=? now s + skew s))
      then raise (OAuthError "StaleTimestampError")
      else
        nonce <- get_parameter req "oauth_nonce" ;;
        fresh <- record_nonce_if_new (ck, token_key, ts, nonce) ;;
        if negb fresh then raise (OAuthError "NonceReplayError")
        else
          method <- get_parameter req "oauth_signature_method" ;;
          if negb (bool_decide (method ∈ signature_methods srv))
          then raise (OAuthError "UnsupportedSignatureMethodError")
          else
            signature <- get_parameter req "oauth_signature" ;;
            if String.eqb signature
                 (signature_of method req (consumer_secret c) token_secret)
            then ret c
            else raise (OAuthError "InvalidSignatureError")
  end.

(** A new token of the store: its key and secret are numbered by
    the count of tokens issued so far. *)
Definition create_token (kd : token_kind) (c : Consumer) (u : pyval)
  : M Store Token :=
  fun s =>
    let n := pretty (issued s) in
    let prefix := match kd with RequestToken => "rt" | AccessToken => "at" end in
    let t := {| key := prefix +:+ n; secret := prefix +:+ "s" +:+ n;
                token_user := u; consumer := c |} in
    (Ok t,
     {| consumers := consumers s;
        tokens := {| stored := t; kind := kd;
                     state := match kd with
                              | RequestToken => UNAUTHORIZED
                              | AccessToken => AUTHORIZED
                              end |} :: tokens s;
        nonces := nonces s; now := now s; skew := skew s;
        issued := S (issued s) |}).

(** The token with key [k] and kind [kd] gets a new content and
    state. *)
Definition update_token (kd : token_kind) (k : string) (t : Token)
    (st : token_state) : M Store unit :=
  modify (fun s =>
    set_tokens
      ((fun x =>
          if String.eqb (key (stored x)) k && bool_decide (kind x = kd)
          then {| stored := t; kind := kd; state := st |} else x)
         <$> tokens s) s).

Definition fetch_request_token (srv : OAuthServer Request) (req : Request)
  : M Store Token :=
  c <- check srv req EmptyString EmptyString ;;
  create_token RequestToken c PyNone.

Definition authorize_token (srv : OAuthServer Request) (token : Token)
    (u : pyval) : M Store Token :=
  s <- get ;;
  match lookup_token RequestToken (key token) s with
  | None => raise (OAuthError "TokenNotFoundError")
  | Some t =>
      if bool_decide (state t = UNAUTHORIZED) then
        let t' := {| key := key token; secret := secret token;
                     token_user := u; consumer := consumer token |} in
        update_token RequestToken (key token) t' AUTHORIZED ;;;
        ret t'
      else raise (OAuthError "TokenNotAuthorizedError")
  end.

Definition fetch_access_token (srv : OAuthServer Request) (req : Request)
  : M Store Token :=
  tk <- get_parameter req "oauth_token" ;;
  s <- get ;;
  match List.find
          (fun t => String.eqb (key (stored t)) tk &&
                    bool_decide (kind t = RequestToken)) (tokens s) with
  | None => raise (OAuthError "TokenNotFoundError")
  | Some t =>
      c <- check srv req tk (secret (stored t)) ;;
      match state t with
      | UNAUTHORIZED => raise (OAuthError "TokenNotAuthorizedError")
      | CONSUMED => raise (OAuthError "TokenAlreadyConsumedError")
      | AUTHORIZED =>
          update_token RequestToken tk (stored t) CONSUMED ;;;
          create_token AccessToken c (token_user (stored t))
      end
  end.

Definition verify_request (srv : OAuthServer Request) (req : Request)
  : M Store (option Consumer * option Token * gmap string string) :=
  tk <- get_parameter req "oauth_token" ;;
  s <- get ;;
  match lookup_token AccessToken tk s with
  | None => raise (OAuthError "TokenNotFoundError")
  | Some t =>
      c <- check srv req tk (secret (stored t)) ;;
      ret (Some c, Some (stored t), parameters req)
  end.

Definition get_callback (srv : OAuthServer Request) (req : Request)
  : M Store string :=
  get_parameter req "oauth_callback".

(** The parameters without [oauth_signature], percent-encoded, sorted
    by key and then by value, and joined as [key=value] pairs. *)
Definition get_normalized_parameters (req : Request) : string :=
  let params := delete "oauth_signature" (parameters req) in
  let key_values :=
    (fun kv => (percent_encode kv.1, percent_encode kv.2))
      <$> map_to_list params in
  String.concat "&"
    ((fun kv => kv.1 +:+ "=" +:+ kv.2) <$> Py.sorted pair_leb key_values).

(** What this server appends to the callback URL for a token: its key,
    as a parameter. *)
Definition key_parameter (token : Token) : string :=
  "oauth_token=" +:+ percent_encode (key token).

#[export] Instance lib : OAuthLib :=
  Build_OAuthLib Store Request from_request get_normalized_parameters
    fetch_request_token fetch_access_token authorize_token
    verify_request get_callback key_parameter.

End Server.

End Reference.

(** ** Scenarios

    The concrete requests of section 8 of the spec and a few more, run on
    the reference server. *)

Module Scenario.

(** A request with every field empty: [GET /], anonymous user. *)
Definition blank : HttpRequest :=
  {| method := "GET"; absolute_uri := "http://api.example/";
     META := ∅; GET := ∅; POST := ∅; environ := ∅; session := ∅;
     user := PyAnonymousUser; throttle_extra := None |}.

Definition with_header (value : string) (r : HttpRequest) : HttpRequest :=
  {| method := method r; absolute_uri := absolute_uri r;
     META := <["HTTP_AUTHORIZATION" := value]> (META r);
     GET := GET r; POST := POST r; environ := environ r;
     session := session r; user := user r;
     throttle_extra := throttle_extra r |}.

Definition with_GET (params : gmap string string) (r : HttpRequest)
  : HttpRequest :=
  {| method := method r; absolute_uri := absolute_uri r; META := META r;
     GET := params; POST := POST r; environ := environ r;
     session := session r; user := user r;
     throttle_extra := throttle_extra r |}.

Definition with_POST (params : gmap string string) (r : HttpRequest)
  : HttpRequest :=
  {| method := "POST"; absolute_uri := absolute_uri r; META := META r;
     GET := GET r; POST := params; environ := environ r;
     session := session r; user := user r;
     throttle_extra := throttle_extra r |}.

Definition alice : User := {| user_id := 1; username := "alice" |}.

(** The accounts: alice, whose password is [secret]. *)
Definition users : gmap string Account :=
  {[ "alice" := {| account_user := alice;
                   check_password := String.eqb "secret" |} ]}.

Definition basic : HttpBasicAuthentication.t :=
  HttpBasicAuthentication.init users None None.

(** The scenarios sign with PLAINTEXT; the digest of the other method is
    left a fixed text. *)
Definition hmac_sha1 (req : Reference.Request) (cs ts : string) : string :=
  "HMAC-SHA1".

(** The consumer [ck1] with secret [cs1]. *)
Definition ck1 : Consumer :=
  {| consumer_id := 7; consumer_key := "ck1"; consumer_secret := "cs1" |}.

(** An access token of [ck1] that alice granted. *)
Definition at1 : Token :=
  {| key := "at1"; secret := "ats1"; token_user := PyUser alice;
     consumer := ck1 |}.

(** A request token of [ck1] that nobody authorized yet. *)
Definition rt1 : Token :=
  {| key := "rt1"; secret := "rts1"; token_user := PyNone; consumer := ck1 |}.

Definition store : Reference.Store :=
  {| Reference.consumers := [ck1];
     Reference.tokens :=
       [ {| Reference.stored := at1; Reference.kind := Reference.AccessToken;
            Reference.state := Reference.AUTHORIZED |};
         {| Reference.stored := rt1; Reference.kind := Reference.RequestToken;
            Reference.state := Reference.UNAUTHORIZED |} ];
     Reference.nonces := [];
     Reference.now := 1000; Reference.skew := 300; Reference.issued := 0 |}.

#[export] Instance lib : OAuthLib := Reference.lib hmac_sha1.

#[export] Instance site : Site :=
  {| settings := {[ "OAUTH_CALLBACK_VIEW" := "callback_view" ]};
     call_auth_view := fun _ token callback params =>
       ret (oauth_auth_view token callback params);
     call_callback_view := fun _ token =>
       ret (HttpResponse_new ("Callback for " +:+ key token));
     login_redirect := fun r =>
       HttpResponseRedirect ("/accounts/login/?next=" +:+ absolute_uri r);
     render_to_string := fun template _ => template;
     py_int := decimal_int |}.

(** A variant of the reference server whose store refuses every
    authorization. *)
Definition refusing_lib : OAuthLib :=
  Build_OAuthLib Reference.Store Reference.Request Reference.from_request
    (Reference.get_normalized_parameters)
    (Reference.fetch_request_token hmac_sha1)
    (Reference.fetch_access_token hmac_sha1)
    (fun _ _ _ => raise (OAuthError "TokenNotAuthorizedError"))
    (Reference.verify_request hmac_sha1)
    Reference.get_callback Reference.key_parameter.

Definition refusing_site : @Site refusing_lib :=
  {| settings := ∅;
     call_auth_view := fun _ token callback params =>
       ret (oauth_auth_view (oauth_lib := refusing_lib)
              token callback params);
     call_callback_view := fun _ token =>
       ret (HttpResponse_new ("Callback for " +:+ key token));
     login_redirect := fun r =>
       HttpResponseRedirect ("/accounts/login/?next=" +:+ absolute_uri r);
     render_to_string := fun template _ => template;
     py_int := decimal_int |}.

Definition world (r : HttpRequest) : World Reference.Store :=
  {| request := r; db := store; stdout := [] |}.

(** Section 8: the request-token call of consumer [ck1], signed with
    PLAINTEXT, stamped now, nonce [n1]. *)
Definition request_token_params : gmap string string :=
  {[ "oauth_consumer_key" := "ck1";
     "oauth_signature_method" := "PLAINTEXT";
     "oauth_signature" := "cs1&";
     "oauth_timestamp" := "1000";
     "oauth_nonce" := "n1" ]}.

Definition request_token_call : HttpRequest :=
  with_GET request_token_params blank.

(** The OAuth request and the server that [initialize_server_request]
    builds from a request with no Authorization header. *)
Definition oauth_request_of (r : HttpRequest) : Reference.Request :=
  {| Reference.http_method := method r;
     Reference.http_url := absolute_uri r;
     Reference.parameters := REQUEST r |}.

Definition server_of (r : HttpRequest) : OAuthServer Reference.Request :=
  add_signature_method "HMAC-SHA1"
    (add_signature_method "PLAINTEXT" (OAuthServer_new (oauth_request_of r))).

(** The store after [fetch_request_token] ran on the request. *)
Definition store_after_fetch (r : HttpRequest) : Reference.Store :=
  snd (Reference.fetch_request_token hmac_sha1 (server_of r)
         (oauth_request_of r) store).

(** The first request token the store issues to [ck1]. *)
Definition rt0 : Token :=
  {| key := "rt0"; secret := "rts0"; token_user := PyNone; consumer := ck1 |}.

(** The same call from a consumer nobody registered. *)
Definition unknown_consumer_call : HttpRequest :=
  with_GET (<["oauth_consumer_key" := "nobody"]> request_token_params) blank.

(** Section 8: the access-token exchange with the request token [rt1],
    still unauthorized. *)
Definition access_token_call : HttpRequest :=
  with_GET
    {[ "oauth_consumer_key" := "ck1"; "oauth_token" := "rt1";
       "oauth_signature_method" := "PLAINTEXT";
       "oauth_signature" := "cs1&rts1";
       "oauth_timestamp" := "1000"; "oauth_nonce" := "n2" ]} blank.

(** An API call signed with the access token [at1]. *)
Definition api_params : gmap string string :=
  {[ "oauth_consumer_key" := "ck1"; "oauth_token" := "at1";
     "oauth_signature_method" := "PLAINTEXT";
     "oauth_signature" := "cs1&ats1";
     "oauth_timestamp" := "1000"; "oauth_nonce" := "n3" ]}.

Definition api_call : HttpRequest := with_GET api_params blank.

(** The same call with a token the store does not know. *)
Definition bad_token_call : HttpRequest :=
  with_GET (<["oauth_token" := "gone"]> api_params) blank.

(** The user-authorization step, posted by alice: the session holds the
    token key [in_session], the form says [authorize_access]. *)
Definition user_auth_post (in_session authorize_access : string)
    (callback : option string) : HttpRequest :=
  let params :=
    match callback with
    | Some c => <["oauth_callback" := c]> request_token_params
    | None => request_token_params
    end in
  set_user (PyUser alice)
    (set_session "oauth" in_session
       (with_POST {[ "authorize_access" := authorize_access ]}
          (with_GET params blank))).

(** A header with five parameters: [oauth_signature] is not one of
    them. *)
Definition five_parameter_header : string :=
  "OAuth oauth_consumer_key=" +:+ Py.dquote +:+ "ck1" +:+ Py.dquote +:+
  ", oauth_token=" +:+ Py.dquote +:+ "at1" +:+ Py.dquote +:+
  ", oauth_signature_method=" +:+ Py.dquote +:+ "PLAINTEXT" +:+ Py.dquote +:+
  ", oauth_timestamp=" +:+ Py.dquote +:+ "1000" +:+ Py.dquote +:+
  ", oauth_nonce=" +:+ Py.dquote +:+ "n3" +:+ Py.dquote.

(** Three parameters in the header, the other three in the query. *)
Definition split_header : string :=
  "OAuth oauth_consumer_key=" +:+ Py.dquote +:+ "ck1" +:+ Py.dquote +:+
  ", oauth_token=" +:+ Py.dquote +:+ "at1" +:+ Py.dquote +:+
  ", oauth_nonce=" +:+ Py.dquote +:+ "n3" +:+ Py.dquote.

Definition split_call : HttpRequest :=
  with_header split_header
    (with_GET
       {[ "oauth_signature_method" := "PLAINTEXT";
          "oauth_signature" := "cs1&ats1";
          "oauth_timestamp" := "1000" ]} blank).

End Scenario.

(** ** More cases

    Variants of the reference server and the requests the further
    properties are run on. *)

Module Cases.

(** A site over any library: the given settings, the fake auth view,
    a callback view that names the token. *)
Definition plain_site (L : OAuthLib) (s : gmap string string) : @Site L :=
  {| settings := s;
     call_auth_view := fun _ token callback params =>
       ret (oauth_auth_view (oauth_lib := L) token callback params);
     call_callback_view := fun _ token =>
       ret (HttpResponse_new ("Callback for " +:+ key token));
     login_redirect := fun r =>
       HttpResponseRedirect ("/accounts/login/?next=" +:+ absolute_uri r);
     render_to_string := fun template _ => template;
     py_int := decimal_int |}.

(** A server whose store is out of reach: every operation on tokens
    raises an error that is no [OAuthError]. *)
Definition failing_lib : OAuthLib :=
  Build_OAuthLib Reference.Store Reference.Request Reference.from_request
    Reference.get_normalized_parameters
    (fun _ _ => raise (OtherError "database is down"))
    (fun _ _ => raise (OtherError "database is down"))
    (fun _ _ _ => raise (OtherError "database is down"))
    (fun _ _ => raise (OtherError "database is down"))
    Reference.get_callback Reference.key_parameter.

(** A request parser that raises on an Authorization header it finds no
    parameter in. *)
Definition strict_from_request (http_method http_url : string)
    (headers parameters : gmap string string) (query_string : string)
  : result (option Reference.Request) :=
  match headers !! "HTTP_AUTHORIZATION" with
  | Some h =>
      if bool_decide (Header.params h = ∅)
      then Raise (OAuthError
                    "Unable to parse OAuth parameters from Authorization header.")
      else Reference.from_request http_method http_url headers parameters
             query_string
  | None =>
      Reference.from_request http_method http_url headers parameters
        query_string
  end.

Definition strict_lib : OAuthLib :=
  Build_OAuthLib Reference.Store Reference.Request strict_from_request
    Reference.get_normalized_parameters
    (Reference.fetch_request_token Scenario.hmac_sha1)
    (Reference.fetch_access_token Scenario.hmac_sha1)
    (Reference.authorize_token)
    (Reference.verify_request Scenario.hmac_sha1)
    Reference.get_callback Reference.key_parameter.

(** The accounts when the password of alice is [pa:ss]. *)
Definition colon_users : gmap string Account :=
  {[ "alice" := {| account_user := Scenario.alice;
                   check_password := String.eqb "pa:ss" |} ]}.

Definition with_method (m : string) (r : HttpRequest) : HttpRequest :=
  {| method := m; absolute_uri := absolute_uri r; META := META r;
     GET := GET r; POST := POST r; environ := environ r;
     session := session r; user := user r;
     throttle_extra := throttle_extra r |}.

(** The six names in one header, with no scheme and no values. *)
Definition names_only_header : string :=
  "oauth_consumer_key oauth_token oauth_signature_method oauth_timestamp oauth_nonce".

(** Three names in the body, three in the query. *)
Definition body_and_query_call : HttpRequest :=
  Scenario.with_POST
    {[ "oauth_consumer_key" := "ck1"; "oauth_token" := "at1";
       "oauth_signature" := "cs1&ats1" ]}
    (Scenario.with_GET
       {[ "oauth_signature_method" := "PLAINTEXT";
          "oauth_timestamp" := "1000"; "oauth_nonce" := "n3" ]}
       Scenario.blank).

(** The store once alice authorized the request token [rt1]. *)
Definition rt1_authorized : Token :=
  {| key := "rt1"; secret := "rts1"; token_user := PyUser Scenario.alice;
     consumer := Scenario.ck1 |}.

Definition authorized_store : Reference.Store :=
  {| Reference.consumers := [Scenario.ck1];
     Reference.tokens :=
       [ {| Reference.stored := rt1_authorized;
            Reference.kind := Reference.RequestToken;
            Reference.state := Reference.AUTHORIZED |} ];
     Reference.nonces := [];
     Reference.now := 1000; Reference.skew := 300; Reference.issued := 0 |}.

Definition authorized_world (r : HttpRequest) : World Reference.Store :=
  {| request := r; db := authorized_store; stdout := [] |}.

(** The access token issued for [rt1]. *)
Definition at0 : Token :=
  {| key := "at0"; secret := "ats0"; token_user := PyUser Scenario.alice;
     consumer := Scenario.ck1 |}.

(** The request token [rt0] once alice authorized it. *)
Definition rt0_authorized : Token :=
  {| key := "rt0"; secret := "rts0"; token_user := PyUser Scenario.alice;
     consumer := Scenario.ck1 |}.

(** A server that knows no token and names the one it was asked for in
    its message, a byte string built from the parameter as the request
    carried it. *)
Definition unknown_token {A} (what : string) (req : Reference.Request)
  : M Reference.Store A :=
  tk <- Reference.get_parameter req "oauth_token" ;;
  raise (OAuthError (Str ("Invalid " +:+ what +:+ " token: " +:+ tk))).

Definition naming_lib : OAuthLib :=
  Build_OAuthLib Reference.Store Reference.Request Reference.from_request
    Reference.get_normalized_parameters
    (fun _ req => unknown_token "request" req)
    (fun _ req => unknown_token "access" req)
    (fun _ token _ =>
       raise (OAuthError (Str ("Invalid request token: " +:+ key token))))
    (fun _ req => unknown_token "access" req)
    Reference.get_callback Reference.key_parameter.

Definition naming_site : @Site naming_lib := plain_site naming_lib ∅.

(** A header with the six parameters whose token key is the single
    byte 233, percent-encoded as [%E9] on the wire. *)
Definition high_byte_header : string :=
  "OAuth oauth_consumer_key=" +:+ Py.dquote +:+ "ck1" +:+ Py.dquote +:+
  ", oauth_token=" +:+ Py.dquote +:+ "%E9" +:+ Py.dquote +:+
  ", oauth_signature_method=" +:+ Py.dquote +:+ "PLAINTEXT" +:+ Py.dquote +:+
  ", oauth_signature=" +:+ Py.dquote +:+ "cs1%26" +:+ Py.dquote +:+
  ", oauth_timestamp=" +:+ Py.dquote +:+ "1000" +:+ Py.dquote +:+
  ", oauth_nonce=" +:+ Py.dquote +:+ "n3" +:+ Py.dquote.

Definition high_byte_call : HttpRequest :=
  Scenario.with_header high_byte_header Scenario.blank.

(** The OAuth request and the server built from a request that carries
    its parameters in the header. *)
Definition header_request_of (r : HttpRequest) : Reference.Request :=
  {| Reference.http_method := method r;
     Reference.http_url := absolute_uri r;
     Reference.parameters :=
       Header.params (default EmptyString (META r !! "HTTP_AUTHORIZATION"))
       ∪ REQUEST r |}.

Definition header_server_of (r : HttpRequest) : OAuthServer Reference.Request :=
  add_signature_method "HMAC-SHA1"
    (add_signature_method "PLAINTEXT"
       (OAuthServer_new (header_request_of r))).

(** The token key that header carries. *)
Definition high_byte : string := String (ascii_of_nat 233) EmptyString.

End Cases.

(** * Theorems *)

(** ** The monad *)

Lemma bind_Ok {S A B} (c : M S A) (k : A -> M S B) s a s' :
  c s = (Ok a, s') -> bind c k s = k a s'.
Proof. intros H. unfold bind. now rewrite H. Qed.

Lemma bind_Raise {S A B} (c : M S A) (k : A -> M S B) s e s' :
  c s = (Raise e, s') -> bind c k s = (Raise e, s').
Proof. intros H. unfold bind. now rewrite H. Qed.

Lemma run_Ok_inv {S A} (a b : A) (s t : S) : (Ok a, s) = (Ok b, t) -> b = a.
Proof. now intros [= -> _]. Qed.

Lemma try_except_OAuthError_Ok {S A} (c : M S A) h s a s' :
  c s = (Ok a, s') -> try_except_OAuthError c h s = (Ok a, s').
Proof. intros H. unfold try_except_OAuthError. now rewrite H. Qed.

Lemma try_except_OAuthError_caught {S A} (c : M S A) h s message s' :
  c s = (Raise (OAuthError message), s') ->
  try_except_OAuthError c h s = h message s'.
Proof. intros H. unfold try_except_OAuthError. now rewrite H. Qed.

(** An exception that is not an [OAuthError] goes through the handler. *)
Lemma try_except_OAuthError_other {S A} (c : M S A) h s e s' :
  c s = (Raise e, s') -> (forall message, e <> OAuthError message) ->
  try_except_OAuthError c h s = (Raise e, s').
Proof.
  intros H Hne. unfold try_except_OAuthError. rewrite H.
  destruct e; try reflexivity. now destruct (Hne message).
Qed.

(** ** Python strings *)

Lemma app_cons c s t : String c s +:+ t = String c (s +:+ t).
Proof. reflexivity. Qed.

Lemma app_empty t : EmptyString +:+ t = t.
Proof. reflexivity. Qed.

Lemma prefix_spec p s :
  String.prefix p s = true <-> exists post, s = p +:+ post.
Proof.
  revert s. induction p as [|c p IH]; intros s; simpl.
  - split; [intros _; now exists s | now destruct s].
  - destruct s as [|d s]; simpl.
    + split; [discriminate | intros [post H]; discriminate].
    + setoid_rewrite app_cons.
      destruct (ascii_dec c d) as [->|Hne].
      * rewrite IH. split; intros [post H]; exists post; congruence.
      * split; [discriminate | intros [post H]; congruence].
Qed.

(** [Py.contains p s] holds exactly when [p] occurs in [s]. *)
Lemma contains_spec p s : Py.contains p s = true <-> occurs_in p s.
Proof.
  unfold occurs_in. induction s as [|c s IH]; cbn [Py.contains];
    rewrite orb_true_iff, prefix_spec.
  - split.
    + intros [[post H]|H]; [|discriminate]. now exists EmptyString, post.
    + intros [[|d pre] [post H]]; [left; now exists post | discriminate].
  - rewrite IH. split.
    + intros [[post H]|[pre [post H]]].
      * now exists EmptyString, post.
      * exists (String c pre), post. rewrite app_cons. now rewrite H.
    + intros [[|d pre] [post H]].
      * left. now exists post.
      * right. exists pre, post. rewrite app_cons in H. congruence.
Qed.

(** Splitting at a separator that does not occur gives one piece. *)
Lemma split1_go_absent sep acc s :
  Py.contains (String sep EmptyString) s = false ->
  exists piece, Py.split1_go sep acc s = [piece].
Proof.
  revert acc. induction s as [|c s IH]; intros acc H.
  - simpl. eauto.
  - cbn [Py.contains] in H. apply orb_false_iff in H as [Hp Hs].
    cbn [Py.split1_go]. destruct (Ascii.eqb_spec c sep) as [->|Hne].
    + assert (String.prefix (String sep EmptyString) (String sep s) = true)
        as Ht by (apply prefix_spec; now exists s).
      congruence.
    + now apply IH.
Qed.

(** The codec and the splits on the inputs used below. *)
Example b64_alice_wrongpass :
  Base64.decode "YWxpY2U6d3JvbmdwYXNz" = Ok "alice:wrongpass".
Proof. reflexivity. Qed.

Example b64_alice : Base64.decode "YWxpY2U=" = Ok "alice".
Proof. reflexivity. Qed.

Example b64_skips_white_space :
  Base64.decode (Py.strip "  YWxp Y2U=  ") = Ok "alice".
Proof. reflexivity. Qed.

Example b64_incomplete : is_Ok (Base64.decode "abc") = false.
Proof. reflexivity. Qed.

Example split1_no_space : Py.split1 " " "Basic" = ["Basic"].
Proof. reflexivity. Qed.

Example split1_first_only : Py.split1 ":" "a:b:c" = ["a"; "b:c"].
Proof. reflexivity. Qed.

Example decimal_int_examples :
  decimal_int " 1 " = Ok 1 /\ decimal_int "-12" = Ok (-12) /\
  decimal_int "0" = Ok 0 /\ decimal_int "- 1" = Ok (-1) /\
  decimal_int "+ 7 " = Ok 7 /\
  is_Ok (decimal_int "yes") = false /\ is_Ok (decimal_int "1 2") = false /\
  is_Ok (decimal_int "-") = false /\ is_Ok (decimal_int EmptyString) = false.
Proof. repeat split; reflexivity. Qed.

(** [iri_to_uri] leaves the characters of a URL and escapes the rest,
    the blank among them. *)
Example iri_to_uri_examples :
  iri_to_uri "http://c.example/cb?a=1&b=2#top" =
    "http://c.example/cb?a=1&b=2#top" /\
  iri_to_uri "/cb?error=Access not granted by user." =
    "/cb?error=Access%20not%20granted%20by%20user.".
Proof. split; reflexivity. Qed.

(** ** Responses *)

Lemma Ok_inj {A} (a b : A) : Ok a = Ok b -> a = b.
Proof. now intros [= ->]. Qed.

Lemma encode_utf8_Ok message :
  encodable message = true -> encode_utf8 message = Ok (raw message).
Proof.
  destruct message as [bytes|utf8]; cbn [encodable encode_utf8 raw].
  - now intros ->.
  - reflexivity.
Qed.

Lemma encode_utf8_Raise message :
  encodable message = false ->
  encode_utf8 message =
    Raise (UnicodeDecodeError "'ascii' codec can't decode byte").
Proof.
  destruct message as [bytes|utf8]; cbn [encodable encode_utf8].
  - now intros ->.
  - discriminate.
Qed.

(** What [send_oauth_error] returns, when it returns: status 401, the
    bytes of the message as the body, and the header of the scheme. *)
Lemma send_oauth_error_inv message response :
  send_oauth_error message = Ok response ->
  encodable message = true /\
  status_code response = 401 /\
  content response = raw message /\
  headers response !! "WWW-Authenticate" =
    Some ("OAuth realm=" +:+ Py.dquote +:+ "OAuth" +:+ Py.dquote).
Proof.
  unfold send_oauth_error.
  destruct (encodable message) eqn:He.
  - rewrite (encode_utf8_Ok _ He).
    unfold set_headers, build_authenticate_header.
    rewrite map_fold_singleton. intros Heq.
    apply Ok_inj in Heq. subst response. split; [reflexivity|].
    split; [reflexivity|]. split; [reflexivity|].
    cbn [headers set_header]. apply lookup_insert_eq.
  - rewrite (encode_utf8_Raise _ He). discriminate.
Qed.

(** It returns on every message that can be encoded. *)
Lemma send_oauth_error_Ok message :
  encodable message = true ->
  exists response, send_oauth_error message = Ok response.
Proof.
  intros He. unfold send_oauth_error. rewrite (encode_utf8_Ok _ He).
  eexists. reflexivity.
Qed.

(** And raises on the others. *)
Lemma send_oauth_error_Raise message :
  encodable message = false ->
  send_oauth_error message =
    Raise (UnicodeDecodeError "'ascii' codec can't decode byte").
Proof.
  intros He. unfold send_oauth_error. now rewrite (encode_utf8_Raise _ He).
Qed.

Lemma INVALID_PARAMS_RESPONSE_sent :
  send_oauth_error (Str "Invalid request parameters.") =
    Ok INVALID_PARAMS_RESPONSE.
Proof. vm_compute. reflexivity. Qed.

(** ** [HttpBasicAuthentication] *)

(** A header that is not empty and holds no space makes
    [is_authenticated] raise: the split gives one piece and the
    unpacking into [(authmeth, auth)] fails. *)
Lemma basic_header_without_space self (request : HttpRequest) h :
  META request !! "HTTP_AUTHORIZATION" = Some h ->
  h <> EmptyString ->
  Py.contains " " h = false ->
  HttpBasicAuthentication.is_authenticated self request =
    (Raise (ValueError "need more than 1 value to unpack"), request).
Proof.
  intros Hh Hne Hsp.
  unfold HttpBasicAuthentication.is_authenticated, bind, get. rewrite Hh.
  destruct h as [|c h]; [congruence|].
  destruct (split1_go_absent " " EmptyString (String c h) Hsp) as [piece Hp].
  unfold Py.split1. now rewrite Hp.
Qed.

(** C1, the code against the claim.  The claim says [is_authenticated]
    never raises, whatever the Authorization header.  On any request [r]
    and for any handler, the header [Basic] (no space) raises
    [ValueError] at the unpacking of the split, the header [Basic abc]
    (a payload that does not decode) raises [binascii.Error], and the
    header [Basic YWxpY2U=] (the credentials [alice], no colon) raises
    [ValueError] at the unpacking of the credentials. *)
Theorem basic_is_authenticated_raises self (r : HttpRequest) :
  fst (HttpBasicAuthentication.is_authenticated self
         (Scenario.with_header "Basic" r))
    = Raise (ValueError "need more than 1 value to unpack") /\
  fst (HttpBasicAuthentication.is_authenticated self
         (Scenario.with_header "Basic abc" r))
    = Raise (BinasciiError "Incorrect padding") /\
  fst (HttpBasicAuthentication.is_authenticated self
         (Scenario.with_header "Basic YWxpY2U=" r))
    = Raise (ValueError "need more than 1 value to unpack").
Proof.
  unfold HttpBasicAuthentication.is_authenticated, bind, get.
  cbn [Scenario.with_header META]. rewrite !lookup_insert_eq.
  repeat split; reflexivity.
Qed.

(** With no Authorization header the answer is [False] and the request
    is as it was. *)
Lemma basic_no_header self (request : HttpRequest) :
  META request !! "HTTP_AUTHORIZATION" = None ->
  HttpBasicAuthentication.is_authenticated self request = (Ok false, request).
Proof.
  intros H. unfold HttpBasicAuthentication.is_authenticated, bind, get.
  now rewrite H.
Qed.

(** The run of [is_authenticated] on a header that parses: the user is
    what the credential check says, or [AnonymousUser]. *)
Lemma basic_parsed self (request : HttpRequest) h authmeth auth cred
    username password :
  META request !! "HTTP_AUTHORIZATION" = Some h ->
  h <> EmptyString ->
  Py.split1 " " h = [authmeth; auth] ->
  Py.lower authmeth = "basic" ->
  Base64.decode (Py.strip auth) = Ok cred ->
  Py.split1 ":" cred = [username; password] ->
  let u := py_or (HttpBasicAuthentication.auth_func self username password)
             PyAnonymousUser in
  HttpBasicAuthentication.is_authenticated self request =
    (Ok (negb (py_in u [PyBool false; PyAnonymousUser])), set_user u request).
Proof.
  intros Hh Hne Hsp Hlow Hdec Hcred u.
  unfold HttpBasicAuthentication.is_authenticated, bind, get, lift, modify.
  rewrite Hh. destruct h as [|c h]; [congruence|].
  rewrite Hsp. cbn [unpack2]. rewrite Hlow. cbn [String.eqb negb].
  rewrite Hdec, Hcred. reflexivity.
Qed.

(** C9.  When the Authorization header is present, has the Basic scheme
    and parses (it splits at a space, the payload decodes, the
    credentials split at a colon), and the credential check rejects the
    credentials (its answer is false), [is_authenticated] returns
    [False] and leaves [request.user] overwritten with [AnonymousUser]:
    the failure is not free of effects on the request. *)
Theorem basic_failure_sets_anonymous_user self (request : HttpRequest)
    h authmeth auth cred username password :
  META request !! "HTTP_AUTHORIZATION" = Some h ->
  h <> EmptyString ->
  Py.split1 " " h = [authmeth; auth] ->
  Py.lower authmeth = "basic" ->
  Base64.decode (Py.strip auth) = Ok cred ->
  Py.split1 ":" cred = [username; password] ->
  truthy (HttpBasicAuthentication.auth_func self username password) = false ->
  HttpBasicAuthentication.is_authenticated self request =
    (Ok false, set_user PyAnonymousUser request) /\
  user (snd (HttpBasicAuthentication.is_authenticated self request)) =
    PyAnonymousUser.
Proof.
  intros Hh Hne Hsp Hlow Hdec Hcred Hrej.
  rewrite (basic_parsed self request h authmeth auth cred username password)
    by assumption.
  unfold py_or. rewrite Hrej. split; reflexivity.
Qed.

(** C9 at the scenario of section 8: alice with a wrong password, on a
    request whose user was alice before the call. *)
Lemma basic_failure_sets_anonymous_user_witness :
  user (set_user (PyUser Scenario.alice)
          (Scenario.with_header "Basic YWxpY2U6d3JvbmdwYXNz" Scenario.blank))
    = PyUser Scenario.alice /\
  HttpBasicAuthentication.is_authenticated Scenario.basic
    (set_user (PyUser Scenario.alice)
       (Scenario.with_header "Basic YWxpY2U6d3JvbmdwYXNz" Scenario.blank)) =
    (Ok false,
     set_user PyAnonymousUser
       (set_user (PyUser Scenario.alice)
          (Scenario.with_header "Basic YWxpY2U6d3JvbmdwYXNz" Scenario.blank))) /\
  user (snd (HttpBasicAuthentication.is_authenticated Scenario.basic
               (set_user (PyUser Scenario.alice)
                  (Scenario.with_header "Basic YWxpY2U6d3JvbmdwYXNz"
                     Scenario.blank)))) = PyAnonymousUser.
Proof.
  split; [reflexivity|].
  apply (basic_failure_sets_anonymous_user Scenario.basic _
           "Basic YWxpY2U6d3JvbmdwYXNz" "Basic" "YWxpY2U6d3JvbmdwYXNz"
           "alice:wrongpass" "alice" "wrongpass");
    first [reflexivity | discriminate].
Defined.

(** C7.  For every realm [r], the challenge of a handler built with
    [realm=r] has status 401 and the header [WWW-Authenticate] equal to
    [Basic realm="r"]; a handler built with no realm has the header
    [Basic realm="API"].  ([Py.dquote] is the double quote.) *)
Theorem basic_challenge users auth_func (r : string) :
  status_code
    (HttpBasicAuthentication.challenge
       (HttpBasicAuthentication.init users auth_func (Some r))) = 401 /\
  headers
    (HttpBasicAuthentication.challenge
       (HttpBasicAuthentication.init users auth_func (Some r)))
    !! "WWW-Authenticate"
    = Some ("Basic realm=" +:+ Py.dquote +:+ r +:+ Py.dquote) /\
  status_code
    (HttpBasicAuthentication.challenge
       (HttpBasicAuthentication.init users auth_func None)) = 401 /\
  headers
    (HttpBasicAuthentication.challenge
       (HttpBasicAuthentication.init users auth_func None))
    !! "WWW-Authenticate"
    = Some ("Basic realm=" +:+ Py.dquote +:+ "API" +:+ Py.dquote).
Proof.
  unfold HttpBasicAuthentication.challenge, HttpBasicAuthentication.init.
  cbn [status_code headers set_status set_header HttpBasicAuthentication.realm
       default from_option].
  rewrite !lookup_insert_eq. repeat split; reflexivity.
Qed.

(** ** The OAuth endpoints *)

Section EndpointTheorems.

Context {oauth_lib : OAuthLib} {site : Site}.

(** [initialize_server_request] reads the request and changes nothing. *)
Lemma initialize_server_request_pure w r w1 :
  initialize_server_request w = (r, w1) -> w1 = w.
Proof.
  unfold initialize_server_request, bind, get_request, lift, ret.
  destruct (from_request _ _ _ _ _) as [[oreq|]|e]; congruence.
Qed.

(** It gives a server exactly when it gives a request. *)
Lemma initialize_server_request_both w srv oreq w1 :
  initialize_server_request w = (Ok (srv, oreq), w1) ->
  is_Some srv <-> is_Some oreq.
Proof.
  unfold initialize_server_request, bind, get_request, lift, ret.
  destruct (from_request _ _ _ _ _) as [[r|]|e]; intros Heq;
    inversion Heq; subst; split; intros [x Hx]; try discriminate; eauto.
Qed.

Lemma initialize_server_request_None (w : World DB) :
  from_request (method (request w)) (absolute_uri (request w))
    (META (request w)) (REQUEST (request w))
    (default EmptyString (environ (request w) !! "QUERY_STRING")) = Ok None ->
  initialize_server_request w = (Ok (None, None), w).
Proof.
  intros Hf. unfold initialize_server_request, bind, get_request, lift.
  now rewrite Hf.
Qed.

Lemma initialize_server_request_Raise (w : World DB) e :
  from_request (method (request w)) (absolute_uri (request w))
    (META (request w)) (REQUEST (request w))
    (default EmptyString (environ (request w) !! "QUERY_STRING")) = Raise e ->
  initialize_server_request w = (Raise e, w).
Proof.
  intros Hf. unfold initialize_server_request, bind, get_request, lift.
  now rewrite Hf.
Qed.

(** The three ways a run of [oauth_request_token] goes once the request
    was read. *)
Lemma oauth_request_token_run w srv oreq w1 r db' :
  initialize_server_request w = (Ok (Some srv, Some oreq), w1) ->
  fetch_request_token srv oreq (db w1) = (r, db') ->
  oauth_request_token w =
    match r with
    | Ok token => (Ok (HttpResponse_new (to_string token false)), with_db db' w1)
    | Raise (OAuthError message) =>
        (send_oauth_error message, with_db db' w1)
    | Raise e => (Raise e, with_db db' w1)
    end.
Proof.
  intros Hi Hf. unfold oauth_request_token.
  rewrite (bind_Ok _ _ _ _ _ Hi).
  unfold try_except_OAuthError, bind, not_None, ret, on_db.
  rewrite Hf. destruct r as [token|[]]; reflexivity.
Qed.

Lemma oauth_access_token_run w srv oreq w1 r db' :
  initialize_server_request w = (Ok (Some srv, Some oreq), w1) ->
  fetch_access_token srv oreq (db w1) = (r, db') ->
  oauth_access_token w =
    match r with
    | Ok token => (Ok (HttpResponse_new (to_string token false)), with_db db' w1)
    | Raise (OAuthError message) =>
        (send_oauth_error message, with_db db' w1)
    | Raise e => (Raise e, with_db db' w1)
    end.
Proof.
  intros Hi Hf. unfold oauth_access_token.
  rewrite (bind_Ok _ _ _ _ _ Hi).
  unfold try_except_OAuthError, bind, not_None, ret, on_db.
  rewrite Hf. destruct r as [token|[]]; reflexivity.
Qed.

(** C8.  When the request-token endpoint is called with a request that
    parses into an OAuth request and [fetch_request_token] succeeds on
    it with a token, [oauth_request_token] returns a response of status
    200 whose body is the string form of that token, that is the
    parameters [oauth_token] and [oauth_token_secret] with the key and
    the secret of the token issued. *)
Theorem request_token_success w srv oreq w1 token db' :
  initialize_server_request w = (Ok (Some srv, Some oreq), w1) ->
  fetch_request_token srv oreq (db w1) = (Ok token, db') ->
  oauth_request_token w =
    (Ok (HttpResponse_new (to_string token false)), with_db db' w1) /\
  status_code (HttpResponse_new (to_string token false)) = 200 /\
  content (HttpResponse_new (to_string token false)) =
    "oauth_token=" +:+ percent_encode (key token) +:+
    "&oauth_token_secret=" +:+ percent_encode (secret token).
Proof.
  intros Hi Hf. split; [|split; reflexivity].
  now rewrite (oauth_request_token_run _ _ _ _ _ _ Hi Hf).
Qed.

Lemma get_request_run (w : World DB) : get_request w = (Ok (request w), w).
Proof. reflexivity. Qed.

Lemma on_db_run {A} (c : M DB A) (w : World DB) r d :
  c (db w) = (r, d) -> on_db c w = (r, with_db d w).
Proof. intros Hc. unfold on_db. now rewrite Hc. Qed.

Lemma on_request_modify (f : HttpRequest -> HttpRequest) (w : World DB) :
  on_request (modify f) w = (Ok tt, with_request (f (request w)) w).
Proof. reflexivity. Qed.

Lemma get_callback_run srv oreq (w : World DB) rc d :
  get_callback srv oreq (db w) = (rc, d) ->
  try_except_all (c <- on_db (get_callback srv oreq) ;; ret (Some c))
    (ret None) w = (Ok (callback_of rc), with_db d w).
Proof.
  intros Hc. unfold try_except_all, bind. rewrite (on_db_run _ _ _ _ Hc).
  now destruct rc.
Qed.

(** A user who is not logged in is sent to the login page; no server
    operation runs. *)
Lemma user_auth_login_required (w : World DB) :
  user_is_authenticated (user (request w)) = false ->
  oauth_user_auth w = (Ok (Some (login_redirect (request w))), w).
Proof.
  intros Hlogin. unfold oauth_user_auth, login_required.
  rewrite (bind_Ok _ _ _ _ _ (get_request_run _)). now rewrite Hlogin.
Qed.

(** The run of [oauth_user_auth] up to the fetch of the token. *)
Ltac user_auth_to_fetch Hlogin Hi Hf :=
  unfold oauth_user_auth, login_required;
  rewrite (bind_Ok _ _ _ _ _ (get_request_run _)); rewrite Hlogin;
  unfold oauth_user_auth_view; rewrite (bind_Ok _ _ _ _ _ Hi);
  unfold not_None; unfold bind at 1; unfold ret at 1;
  unfold bind at 1; unfold try_except_OAuthError at 1; unfold bind at 1;
  rewrite (on_db_run _ _ _ _ Hf); unfold ret at 1; cbn beta iota.

(** And from there to the test of the method, which is [POST]. *)
Ltac user_auth_to_post Hc Hm :=
  lazymatch goal with
  | |- bind (try_except_all _ _) _ ?w = _ =>
      rewrite (bind_Ok _ _ _ _ _ (get_callback_run _ _ w _ _ Hc))
  end;
  rewrite (bind_Ok _ _ _ _ _ (get_request_run _));
  cbn [request with_db]; rewrite Hm;
  change (String.eqb "POST" "GET") with false;
  change (String.eqb "POST" "POST") with true; cbn beta iota.

Lemma user_auth_fetch_error w srv oreq w1 message db' :
  user_is_authenticated (user (request w)) = true ->
  initialize_server_request w = (Ok (Some srv, Some oreq), w1) ->
  fetch_request_token srv oreq (db w1) = (Raise (OAuthError message), db') ->
  oauth_user_auth w =
    (match send_oauth_error message with
     | Ok response => Ok (Some response)
     | Raise e => Raise e
     end, with_db db' w1).
Proof.
  intros Hlogin Hi Hf.
  user_auth_to_fetch Hlogin Hi Hf.
  unfold bind, lift, ret. destruct (send_oauth_error message); reflexivity.
Qed.

Lemma user_auth_session_mismatch w srv oreq w1 token db1 rc db2 :
  user_is_authenticated (user (request w)) = true ->
  initialize_server_request w = (Ok (Some srv, Some oreq), w1) ->
  fetch_request_token srv oreq (db w1) = (Ok token, db1) ->
  get_callback srv oreq db1 = (rc, db2) ->
  method (request w1) = "POST" ->
  default EmptyString (session (request w1) !! "oauth") <> key token ->
  oauth_user_auth w =
    (Ok (Some (HttpResponse_new "Action not allowed.")), with_db db2 w1).
Proof.
  intros Hlogin Hi Hf Hc Hm Hs.
  apply String.eqb_neq in Hs.
  user_auth_to_fetch Hlogin Hi Hf.
  user_auth_to_post Hc Hm.
  rewrite Hs. reflexivity.
Qed.

Lemma user_auth_denied w srv oreq w1 token db1 callback db2 :
  user_is_authenticated (user (request w)) = true ->
  initialize_server_request w = (Ok (Some srv, Some oreq), w1) ->
  fetch_request_token srv oreq (db w1) = (Ok token, db1) ->
  get_callback srv oreq db1 = (Ok callback, db2) ->
  callback <> EmptyString ->
  method (request w1) = "POST" ->
  default EmptyString (session (request w1) !! "oauth") = key token ->
  py_int (default "0" (POST (request w1) !! "authorize_access")) = Ok 0 ->
  oauth_user_auth w =
    (Ok (Some (HttpResponseRedirect
                 (callback +:+ "?error=Access not granted by user."))),
     with_request (set_session "oauth" EmptyString (request w1))
       (with_db db2 w1)).
Proof.
  intros Hlogin Hi Hf Hc Hcb Hm Hs Hint.
  apply String.eqb_eq in Hs.
  user_auth_to_fetch Hlogin Hi Hf.
  user_auth_to_post Hc Hm.
  rewrite Hs.
  rewrite (bind_Ok _ _ _ _ _ (on_request_modify _ _)).
  unfold bind at 1. unfold try_except_OAuthError at 1.
  unfold bind at 1. unfold lift at 1. rewrite Hint.
  cbn. destruct callback; [congruence|]. reflexivity.
Qed.

Lemma user_auth_authorize_error w srv oreq w1 token db1 rc db2 n message db3 :
  user_is_authenticated (user (request w)) = true ->
  initialize_server_request w = (Ok (Some srv, Some oreq), w1) ->
  fetch_request_token srv oreq (db w1) = (Ok token, db1) ->
  get_callback srv oreq db1 = (rc, db2) ->
  method (request w1) = "POST" ->
  default EmptyString (session (request w1) !! "oauth") = key token ->
  py_int (default "0" (POST (request w1) !! "authorize_access")) = Ok n ->
  n <> 0 ->
  authorize_token srv token (user (request w1)) db2 =
    (Raise (OAuthError message), db3) ->
  oauth_user_auth w =
    (match send_oauth_error message with
     | Ok response => Ok (Some response)
     | Raise e => Raise e
     end,
     with_request (set_session "oauth" EmptyString (request w1))
       (with_db db3 w1)).
Proof.
  intros Hlogin Hi Hf Hc Hm Hs Hint Hn Ha.
  apply String.eqb_eq in Hs. apply Z.eqb_neq in Hn.
  user_auth_to_fetch Hlogin Hi Hf.
  user_auth_to_post Hc Hm.
  rewrite Hs.
  rewrite (bind_Ok _ _ _ _ _ (on_request_modify _ _)).
  unfold bind at 1. unfold try_except_OAuthError at 1.
  unfold bind at 1. unfold lift at 1. rewrite Hint. rewrite Hn.
  cbn [negb]. unfold bind at 1. unfold bind at 1.
  rewrite get_request_run. unfold bind at 1.
  erewrite on_db_run by (cbn; exact Ha).
  unfold lift, ret. destruct (send_oauth_error message); reflexivity.
Qed.

(** Every response of [oauth_request_token] is the token body or an
    answer of [send_oauth_error]. *)
Lemma oauth_request_token_responses w r w' :
  oauth_request_token w = (Ok r, w') ->
  (exists token, r = HttpResponse_new (to_string token false)) \/
  (exists message, send_oauth_error message = Ok r).
Proof.
  destruct (initialize_server_request w) as [[[srv oreq]|e] w1] eqn:Hi.
  - destruct srv as [srv|], oreq as [oreq|].
    + destruct (fetch_request_token srv oreq (db w1)) as [rf db'] eqn:Hf.
      rewrite (oauth_request_token_run _ _ _ _ _ _ Hi Hf).
      destruct rf as [token|e].
      * intros Heq. apply run_Ok_inv in Heq. left. now exists token.
      * destruct e as [message| | | | | |];
          [intros Heq; right; exists message; exact (f_equal fst Heq)
          | discriminate ..].
    + destruct (initialize_server_request_both _ _ _ _ Hi) as [Hs _].
      destruct Hs as [x Hx]; [eauto | discriminate].
    + unfold oauth_request_token. rewrite (bind_Ok _ _ _ _ _ Hi).
      intros Heq. apply run_Ok_inv in Heq. right. subst r.
      exists (Str "Invalid request parameters.").
      exact INVALID_PARAMS_RESPONSE_sent.
    + unfold oauth_request_token. rewrite (bind_Ok _ _ _ _ _ Hi).
      intros Heq. apply run_Ok_inv in Heq. right. subst r.
      exists (Str "Invalid request parameters.").
      exact INVALID_PARAMS_RESPONSE_sent.
  - unfold oauth_request_token. rewrite (bind_Raise _ _ _ _ _ Hi). discriminate.
Qed.

Lemma oauth_access_token_responses w r w' :
  oauth_access_token w = (Ok r, w') ->
  (exists token, r = HttpResponse_new (to_string token false)) \/
  (exists message, send_oauth_error message = Ok r).
Proof.
  destruct (initialize_server_request w) as [[[srv oreq]|e] w1] eqn:Hi.
  - destruct srv as [srv|], oreq as [oreq|].
    + destruct (fetch_access_token srv oreq (db w1)) as [rf db'] eqn:Hf.
      rewrite (oauth_access_token_run _ _ _ _ _ _ Hi Hf).
      destruct rf as [token|e].
      * intros Heq. apply run_Ok_inv in Heq. left. now exists token.
      * destruct e as [message| | | | | |];
          [intros Heq; right; exists message; exact (f_equal fst Heq)
          | discriminate ..].
    + unfold oauth_access_token. rewrite (bind_Ok _ _ _ _ _ Hi).
      intros Heq. apply run_Ok_inv in Heq. right. subst r.
      exists (Str "Invalid request parameters.").
      exact INVALID_PARAMS_RESPONSE_sent.
    + destruct (initialize_server_request_both _ _ _ _ Hi) as [_ Hs].
      destruct Hs as [x Hx]; [eauto | discriminate].
    + unfold oauth_access_token. rewrite (bind_Ok _ _ _ _ _ Hi).
      intros Heq. apply run_Ok_inv in Heq. right. subst r.
      exists (Str "Invalid request parameters.").
      exact INVALID_PARAMS_RESPONSE_sent.
  - unfold oauth_access_token. rewrite (bind_Raise _ _ _ _ _ Hi). discriminate.
Qed.

(** The answer to a request without OAuth parameters. *)
Lemma user_auth_missing_parameters (w : World DB) :
  user_is_authenticated (user (request w)) = true ->
  from_request (method (request w)) (absolute_uri (request w))
    (META (request w)) (REQUEST (request w))
    (default EmptyString (environ (request w) !! "QUERY_STRING")) = Ok None ->
  oauth_user_auth w = (Ok (Some INVALID_PARAMS_RESPONSE), w).
Proof.
  intros Hlogin Hf. apply initialize_server_request_None in Hf.
  unfold oauth_user_auth, login_required.
  rewrite (bind_Ok _ _ _ _ _ (get_request_run _)). rewrite Hlogin.
  unfold oauth_user_auth_view. now rewrite (bind_Ok _ _ _ _ _ Hf).
Qed.

(** C4, the claim against the code.  An [OAuthError] of a server
    operation is caught by the entry point, and the handler calls
    [send_oauth_error], which encodes the message.  When the message is
    a byte string with a byte above 127 the encoding raises
    [UnicodeDecodeError] inside the handler: the entry point raises, and
    no response of status 401 is returned.  This is so for
    [fetch_request_token] in [oauth_request_token], for
    [fetch_access_token] in [oauth_access_token], and in
    [oauth_user_auth] (for a logged-in user) both for
    [fetch_request_token] and for [authorize_token] on the POST of a
    granted authorization. *)
Theorem oauth_error_handler_raises message :
  encodable message = false ->
  (forall w srv oreq w1 db',
     initialize_server_request w = (Ok (Some srv, Some oreq), w1) ->
     fetch_request_token srv oreq (db w1) = (Raise (OAuthError message), db') ->
     oauth_request_token w =
       (Raise (UnicodeDecodeError "'ascii' codec can't decode byte"),
        with_db db' w1)) /\
  (forall w srv oreq w1 db',
     initialize_server_request w = (Ok (Some srv, Some oreq), w1) ->
     fetch_access_token srv oreq (db w1) = (Raise (OAuthError message), db') ->
     oauth_access_token w =
       (Raise (UnicodeDecodeError "'ascii' codec can't decode byte"),
        with_db db' w1)) /\
  (forall w srv oreq w1 db',
     user_is_authenticated (user (request w)) = true ->
     initialize_server_request w = (Ok (Some srv, Some oreq), w1) ->
     fetch_request_token srv oreq (db w1) = (Raise (OAuthError message), db') ->
     oauth_user_auth w =
       (Raise (UnicodeDecodeError "'ascii' codec can't decode byte"),
        with_db db' w1)) /\
  (forall w srv oreq w1 token db1 rc db2 n db3,
     user_is_authenticated (user (request w)) = true ->
     initialize_server_request w = (Ok (Some srv, Some oreq), w1) ->
     fetch_request_token srv oreq (db w1) = (Ok token, db1) ->
     get_callback srv oreq db1 = (rc, db2) ->
     method (request w1) = "POST" ->
     default EmptyString (session (request w1) !! "oauth") = key token ->
     py_int (default "0" (POST (request w1) !! "authorize_access")) = Ok n ->
     n <> 0 ->
     authorize_token srv token (user (request w1)) db2 =
       (Raise (OAuthError message), db3) ->
     oauth_user_auth w =
       (Raise (UnicodeDecodeError "'ascii' codec can't decode byte"),
        with_request (set_session "oauth" EmptyString (request w1))
          (with_db db3 w1))).
Proof.
  intros He. pose proof (send_oauth_error_Raise _ He) as Hsend.
  split; [|split; [|split]].
  - intros * Hi Hf. rewrite (oauth_request_token_run _ _ _ _ _ _ Hi Hf).
    now rewrite Hsend.
  - intros * Hi Hf. rewrite (oauth_access_token_run _ _ _ _ _ _ Hi Hf).
    now rewrite Hsend.
  - intros * Hlogin Hi Hf.
    rewrite (user_auth_fetch_error _ _ _ _ _ _ Hlogin Hi Hf).
    now rewrite Hsend.
  - intros * Hlogin Hi Hf Hc Hm Hs Hint Hn Ha.
    rewrite (user_auth_authorize_error _ _ _ _ _ _ _ _ _ _ _
               Hlogin Hi Hf Hc Hm Hs Hint Hn Ha).
    now rewrite Hsend.
Qed.

(** An [OAuthError] whose message can be encoded (text, or a byte string
    of ASCII characters) is answered by the entry point that caught it
    with the response [send_oauth_error] builds: status 401, and the
    bytes of the message as the body. *)
Theorem encodable_oauth_errors_become_401 message :
  encodable message = true ->
  exists response,
    send_oauth_error message = Ok response /\
    status_code response = 401 /\
    content response = raw message /\
    (forall w srv oreq w1 db',
       initialize_server_request w = (Ok (Some srv, Some oreq), w1) ->
       fetch_request_token srv oreq (db w1) =
         (Raise (OAuthError message), db') ->
       oauth_request_token w = (Ok response, with_db db' w1)) /\
    (forall w srv oreq w1 db',
       initialize_server_request w = (Ok (Some srv, Some oreq), w1) ->
       fetch_access_token srv oreq (db w1) =
         (Raise (OAuthError message), db') ->
       oauth_access_token w = (Ok response, with_db db' w1)) /\
    (forall w srv oreq w1 db',
       user_is_authenticated (user (request w)) = true ->
       initialize_server_request w = (Ok (Some srv, Some oreq), w1) ->
       fetch_request_token srv oreq (db w1) =
         (Raise (OAuthError message), db') ->
       oauth_user_auth w = (Ok (Some response), with_db db' w1)) /\
    (forall w srv oreq w1 token db1 rc db2 n db3,
       user_is_authenticated (user (request w)) = true ->
       initialize_server_request w = (Ok (Some srv, Some oreq), w1) ->
       fetch_request_token srv oreq (db w1) = (Ok token, db1) ->
       get_callback srv oreq db1 = (rc, db2) ->
       method (request w1) = "POST" ->
       default EmptyString (session (request w1) !! "oauth") = key token ->
       py_int (default "0" (POST (request w1) !! "authorize_access")) = Ok n ->
       n <> 0 ->
       authorize_token srv token (user (request w1)) db2 =
         (Raise (OAuthError message), db3) ->
       oauth_user_auth w =
         (Ok (Some response),
          with_request (set_session "oauth" EmptyString (request w1))
            (with_db db3 w1))).
Proof.
  intros He. destruct (send_oauth_error_Ok _ He) as [response Hsend].
  destruct (send_oauth_error_inv _ _ Hsend) as (_ & Hst & Hco & _).
  exists response.
  split; [exact Hsend|]. split; [exact Hst|]. split; [exact Hco|].
  split; [|split; [|split]].
  - intros * Hi Hf. rewrite (oauth_request_token_run _ _ _ _ _ _ Hi Hf).
    now rewrite Hsend.
  - intros * Hi Hf. rewrite (oauth_access_token_run _ _ _ _ _ _ Hi Hf).
    now rewrite Hsend.
  - intros * Hlogin Hi Hf.
    rewrite (user_auth_fetch_error _ _ _ _ _ _ Hlogin Hi Hf).
    now rewrite Hsend.
  - intros * Hlogin Hi Hf Hc Hm Hs Hint Hn Ha.
    rewrite (user_auth_authorize_error _ _ _ _ _ _ _ _ _ _ _
               Hlogin Hi Hf Hc Hm Hs Hint Hn Ha).
    now rewrite Hsend.
Qed.

(** C3, as the code has it.  The answers built by [send_oauth_error]
    have status 401 and the header [WWW-Authenticate: OAuth
    realm="OAuth"].  [oauth_request_token] and [oauth_access_token]
    answer with nothing else than the token body or such an answer, and
    [oauth_user_auth] gives such an answer to a request without OAuth
    parameters and to an [OAuthError] it caught from
    [fetch_request_token] or from [authorize_token].  But in
    [oauth_user_auth] the POST whose session does not hold the key of
    the token is answered with status 200, the body [Action not
    allowed.] and no [WWW-Authenticate] header, and the POST that denies
    access is answered, when the request names a callback, with a
    redirect of status 302 whose [Location] is the callback followed by
    [?error=Access not granted by user.], escaped by [iri_to_uri], again
    with no [WWW-Authenticate] header. *)
Theorem oauth_failure_responses :
  (forall message response,
     send_oauth_error message = Ok response ->
     status_code response = 401 /\
     headers response !! "WWW-Authenticate" =
       Some ("OAuth realm=" +:+ Py.dquote +:+ "OAuth" +:+ Py.dquote)) /\
  (forall w r w',
     oauth_request_token w = (Ok r, w') ->
     (exists token, r = HttpResponse_new (to_string token false)) \/
     (exists message, send_oauth_error message = Ok r)) /\
  (forall w r w',
     oauth_access_token w = (Ok r, w') ->
     (exists token, r = HttpResponse_new (to_string token false)) \/
     (exists message, send_oauth_error message = Ok r)) /\
  (forall w : World DB,
     user_is_authenticated (user (request w)) = true ->
     from_request (method (request w)) (absolute_uri (request w))
       (META (request w)) (REQUEST (request w))
       (default EmptyString (environ (request w) !! "QUERY_STRING"))
       = Ok None ->
     oauth_user_auth w = (Ok (Some INVALID_PARAMS_RESPONSE), w) /\
     send_oauth_error (Str "Invalid request parameters.") =
       Ok INVALID_PARAMS_RESPONSE) /\
  (forall w srv oreq w1 message db' response,
     user_is_authenticated (user (request w)) = true ->
     initialize_server_request w = (Ok (Some srv, Some oreq), w1) ->
     fetch_request_token srv oreq (db w1) =
       (Raise (OAuthError message), db') ->
     send_oauth_error message = Ok response ->
     oauth_user_auth w = (Ok (Some response), with_db db' w1)) /\
  (forall w srv oreq w1 token db1 rc db2 n message db3 response,
     user_is_authenticated (user (request w)) = true ->
     initialize_server_request w = (Ok (Some srv, Some oreq), w1) ->
     fetch_request_token srv oreq (db w1) = (Ok token, db1) ->
     get_callback srv oreq db1 = (rc, db2) ->
     method (request w1) = "POST" ->
     default EmptyString (session (request w1) !! "oauth") = key token ->
     py_int (default "0" (POST (request w1) !! "authorize_access")) = Ok n ->
     n <> 0 ->
     authorize_token srv token (user (request w1)) db2 =
       (Raise (OAuthError message), db3) ->
     send_oauth_error message = Ok response ->
     oauth_user_auth w =
       (Ok (Some response),
        with_request (set_session "oauth" EmptyString (request w1))
          (with_db db3 w1))) /\
  (forall w srv oreq w1 token db1 rc db2,
     user_is_authenticated (user (request w)) = true ->
     initialize_server_request w = (Ok (Some srv, Some oreq), w1) ->
     fetch_request_token srv oreq (db w1) = (Ok token, db1) ->
     get_callback srv oreq db1 = (rc, db2) ->
     method (request w1) = "POST" ->
     default EmptyString (session (request w1) !! "oauth") <> key token ->
     exists response,
       oauth_user_auth w = (Ok (Some response), with_db db2 w1) /\
       status_code response = 200 /\
       content response = "Action not allowed." /\
       headers response !! "WWW-Authenticate" = None) /\
  (forall w srv oreq w1 token db1 callback db2,
     user_is_authenticated (user (request w)) = true ->
     initialize_server_request w = (Ok (Some srv, Some oreq), w1) ->
     fetch_request_token srv oreq (db w1) = (Ok token, db1) ->
     get_callback srv oreq db1 = (Ok callback, db2) ->
     callback <> EmptyString ->
     method (request w1) = "POST" ->
     default EmptyString (session (request w1) !! "oauth") = key token ->
     py_int (default "0" (POST (request w1) !! "authorize_access")) = Ok 0 ->
     exists response,
       oauth_user_auth w =
         (Ok (Some response),
          with_request (set_session "oauth" EmptyString (request w1))
            (with_db db2 w1)) /\
       status_code response = 302 /\
       headers response !! "Location" =
         Some (iri_to_uri
                 (callback +:+ "?error=Access not granted by user.")) /\
       headers response !! "WWW-Authenticate" = None).
Proof.
  split; [|split; [|split; [|split; [|split; [|split; [|split]]]]]].
  - intros message response Hsend.
    destruct (send_oauth_error_inv _ _ Hsend) as (_ & Hst & _ & Hh).
    split; assumption.
  - apply oauth_request_token_responses.
  - apply oauth_access_token_responses.
  - intros w Hlogin Hf. split.
    + exact (user_auth_missing_parameters w Hlogin Hf).
    + exact INVALID_PARAMS_RESPONSE_sent.
  - intros * Hlogin Hi Hf Hsend.
    rewrite (user_auth_fetch_error _ _ _ _ _ _ Hlogin Hi Hf).
    now rewrite Hsend.
  - intros * Hlogin Hi Hf Hc Hm Hs Hint Hn Ha Hsend.
    rewrite (user_auth_authorize_error _ _ _ _ _ _ _ _ _ _ _
               Hlogin Hi Hf Hc Hm Hs Hint Hn Ha).
    now rewrite Hsend.
  - intros * Hlogin Hi Hf Hc Hm Hs.
    exists (HttpResponse_new "Action not allowed.").
    split; [exact (user_auth_session_mismatch _ srv oreq _ token db1 rc _
                     Hlogin Hi Hf Hc Hm Hs)|].
    split; [reflexivity|]. split; [reflexivity|]. vm_compute. reflexivity.
  - intros * Hlogin Hi Hf Hc Hcb Hm Hs Hint.
    exists (HttpResponseRedirect
              (callback +:+ "?error=Access not granted by user.")).
    split; [exact (user_auth_denied _ srv oreq _ token db1 _ _
                     Hlogin Hi Hf Hc Hcb Hm Hs Hint)|].
    split; [reflexivity|]. split.
    + unfold HttpResponseRedirect. cbn [headers set_status set_header].
      apply lookup_insert_eq.
    + unfold HttpResponseRedirect. cbn [headers set_status set_header].
      rewrite lookup_insert_ne by discriminate. vm_compute. reflexivity.
Qed.

(** ** Further runs of the endpoints *)

(** What [initialize_server_request] gives: the world is untouched, and
    the answer is a server together with the request it was built on,
    with the signature methods PLAINTEXT and HMAC-SHA1 in that order, or
    neither of the two. *)
Theorem initialize_server_request_shape (w : World DB) :
  snd (initialize_server_request w) = w /\
  match fst (initialize_server_request w) with
  | Ok (Some srv, Some oreq) =>
      data_store srv = oreq /\
      signature_methods srv = ["PLAINTEXT"; "HMAC-SHA1"]
  | Ok (None, None) => True
  | Ok _ => False
  | Raise _ => True
  end.
Proof.
  unfold initialize_server_request, bind, get_request, lift, ret.
  destruct (from_request _ _ _ _ _) as [[oreq|]|e]; cbn; auto.
Qed.

(** A request without OAuth parameters ([from_request] gives [None]) is
    answered by all three entry points with [INVALID_PARAMS_RESPONSE],
    status 401 and body [Invalid request parameters.]; no server
    operation runs and the world is untouched. *)
Theorem missing_parameters_answer (w : World DB) :
  from_request (method (request w)) (absolute_uri (request w))
    (META (request w)) (REQUEST (request w))
    (default EmptyString (environ (request w) !! "QUERY_STRING")) = Ok None ->
  oauth_request_token w = (Ok INVALID_PARAMS_RESPONSE, w) /\
  oauth_access_token w = (Ok INVALID_PARAMS_RESPONSE, w) /\
  (user_is_authenticated (user (request w)) = true ->
   oauth_user_auth w = (Ok (Some INVALID_PARAMS_RESPONSE), w)) /\
  status_code INVALID_PARAMS_RESPONSE = 401 /\
  content INVALID_PARAMS_RESPONSE = "Invalid request parameters.".
Proof.
  intros Hf. apply initialize_server_request_None in Hf.
  split; [|split; [|split; [|split]]].
  - unfold oauth_request_token. now rewrite (bind_Ok _ _ _ _ _ Hf).
  - unfold oauth_access_token. now rewrite (bind_Ok _ _ _ _ _ Hf).
  - intros Hlogin. unfold oauth_user_auth, login_required.
    rewrite (bind_Ok _ _ _ _ _ (get_request_run _)). rewrite Hlogin.
    unfold oauth_user_auth_view. now rewrite (bind_Ok _ _ _ _ _ Hf).
  - vm_compute. reflexivity.
  - vm_compute. reflexivity.
Qed.

(** The request is parsed outside every [try]: an exception of
    [from_request], an [OAuthError] included, leaves the three entry
    points as it is, with no answer built. *)
Theorem parse_errors_escape (w : World DB) e :
  from_request (method (request w)) (absolute_uri (request w))
    (META (request w)) (REQUEST (request w))
    (default EmptyString (environ (request w) !! "QUERY_STRING")) = Raise e ->
  oauth_request_token w = (Raise e, w) /\
  oauth_access_token w = (Raise e, w) /\
  (user_is_authenticated (user (request w)) = true ->
   oauth_user_auth w = (Raise e, w)).
Proof.
  intros Hf. apply initialize_server_request_Raise in Hf.
  split; [|split].
  - unfold oauth_request_token. now rewrite (bind_Raise _ _ _ _ _ Hf).
  - unfold oauth_access_token. now rewrite (bind_Raise _ _ _ _ _ Hf).
  - intros Hlogin. unfold oauth_user_auth, login_required.
    rewrite (bind_Ok _ _ _ _ _ (get_request_run _)). rewrite Hlogin.
    unfold oauth_user_auth_view. now rewrite (bind_Raise _ _ _ _ _ Hf).
Qed.

(** Only [OAuthError] is caught: any other exception of
    [fetch_request_token] or [fetch_access_token] leaves its entry point
    as it is, and what the operation did to the database stays. *)
Theorem other_exceptions_propagate w srv oreq w1 e db' :
  initialize_server_request w = (Ok (Some srv, Some oreq), w1) ->
  (forall message, e <> OAuthError message) ->
  (fetch_request_token srv oreq (db w1) = (Raise e, db') ->
   oauth_request_token w = (Raise e, with_db db' w1)) /\
  (fetch_access_token srv oreq (db w1) = (Raise e, db') ->
   oauth_access_token w = (Raise e, with_db db' w1)).
Proof.
  intros Hi Hne. split; intros Hf.
  - rewrite (oauth_request_token_run _ _ _ _ _ _ Hi Hf).
    destruct e; try reflexivity. now destruct (Hne message).
  - rewrite (oauth_access_token_run _ _ _ _ _ _ Hi Hf).
    destruct e; try reflexivity. now destruct (Hne message).
Qed.

(** When [fetch_access_token] succeeds, [oauth_access_token] answers
    with status 200 and the string form of the access token. *)
Theorem access_token_success w srv oreq w1 token db' :
  initialize_server_request w = (Ok (Some srv, Some oreq), w1) ->
  fetch_access_token srv oreq (db w1) = (Ok token, db') ->
  oauth_access_token w =
    (Ok (HttpResponse_new (to_string token false)), with_db db' w1) /\
  status_code (HttpResponse_new (to_string token false)) = 200 /\
  content (HttpResponse_new (to_string token false)) =
    "oauth_token=" +:+ percent_encode (key token) +:+
    "&oauth_token_secret=" +:+ percent_encode (secret token).
Proof.
  intros Hi Hf. split; [|split; reflexivity].
  now rewrite (oauth_access_token_run _ _ _ _ _ _ Hi Hf).
Qed.

(** From the fetch of the token to the test of the method. *)
Ltac user_auth_to_method Hc :=
  lazymatch goal with
  | |- bind (try_except_all _ _) _ ?w = _ =>
      rewrite (bind_Ok _ _ _ _ _ (get_callback_run _ _ w _ _ Hc))
  end;
  rewrite (bind_Ok _ _ _ _ _ (get_request_run _));
  cbn [request with_db].

(** The matched POST up to the [try] block: the session entry is
    emptied first. *)
Ltac user_auth_to_try Hc Hm Hs :=
  user_auth_to_post Hc Hm; rewrite Hs;
  rewrite (bind_Ok _ _ _ _ _ (on_request_modify _ _));
  unfold bind at 1; unfold try_except_OAuthError at 1;
  unfold bind at 1; unfold lift at 1.

(** GET: the key of the token is stored in the session under [oauth],
    and the answer is the answer of the view named by the setting
    [OAUTH_AUTH_VIEW] ([oauth_auth_view] when the setting is absent),
    called with the token, the callback and the normalized parameters.
    An exception of the view goes on. *)
Theorem user_auth_get w srv oreq w1 token db1 rc db2 :
  user_is_authenticated (user (request w)) = true ->
  initialize_server_request w = (Ok (Some srv, Some oreq), w1) ->
  fetch_request_token srv oreq (db w1) = (Ok token, db1) ->
  get_callback srv oreq db1 = (rc, db2) ->
  method (request w1) = "GET" ->
  oauth_user_auth w =
    let '(r, w') :=
      call_auth_view
        (default "oauth_auth_view" (settings !! "OAUTH_AUTH_VIEW"))
        token (callback_of rc) (get_normalized_parameters oreq)
        (with_request (set_session "oauth" (key token) (request w1))
           (with_db db2 w1)) in
    (match r with Ok response => Ok (Some response) | Raise e => Raise e end,
     w').
Proof.
  intros Hlogin Hi Hf Hc Hm.
  user_auth_to_fetch Hlogin Hi Hf.
  user_auth_to_method Hc. rewrite Hm.
  change (String.eqb "GET" "GET") with true. cbn beta iota.
  rewrite (bind_Ok _ _ _ _ _ (on_request_modify _ _)).
  unfold bind at 1.
  destruct (call_auth_view _ _ _ _ _) as [[response|e] w']; reflexivity.
Qed.

(** POST, access granted, the request names a callback: the token is
    authorized for [request.user], the session entry is emptied, and
    the answer is a redirect of status 302 whose [Location] is the
    callback followed by [?] and the [only_key] form of the authorized
    token, escaped by [iri_to_uri]. *)
Theorem user_auth_granted w srv oreq w1 token db1 callback db2 n token' db3 :
  user_is_authenticated (user (request w)) = true ->
  initialize_server_request w = (Ok (Some srv, Some oreq), w1) ->
  fetch_request_token srv oreq (db w1) = (Ok token, db1) ->
  get_callback srv oreq db1 = (Ok callback, db2) ->
  callback <> EmptyString ->
  method (request w1) = "POST" ->
  default EmptyString (session (request w1) !! "oauth") = key token ->
  py_int (default "0" (POST (request w1) !! "authorize_access")) = Ok n ->
  n <> 0 ->
  authorize_token srv token (user (request w1)) db2 = (Ok token', db3) ->
  exists response,
    oauth_user_auth w =
      (Ok (Some response),
       with_request (set_session "oauth" EmptyString (request w1))
         (with_db db3 w1)) /\
    status_code response = 302 /\
    headers response !! "Location" =
      Some (iri_to_uri (callback +:+ "?" +:+ to_string token' true)).
Proof.
  intros Hlogin Hi Hf Hc Hcb Hm Hs Hint Hn Ha.
  exists (HttpResponseRedirect (callback +:+ "?" +:+ to_string token' true)).
  split; [|split; [reflexivity|]].
  - apply String.eqb_eq in Hs. apply Z.eqb_neq in Hn.
    user_auth_to_fetch Hlogin Hi Hf.
    user_auth_to_try Hc Hm Hs.
    rewrite Hint. rewrite Hn.
    cbn [negb]. unfold bind at 1. unfold bind at 1.
    rewrite get_request_run. unfold bind at 1.
    erewrite on_db_run by (cbn; exact Ha).
    cbn. destruct callback; [congruence|]. reflexivity.
  - unfold HttpResponseRedirect. cbn [headers set_status set_header].
    apply lookup_insert_eq.
Qed.

(** POST, no callback in the request, no setting [OAUTH_CALLBACK_VIEW]:
    the entry point raises [AttributeError], after the session entry
    was emptied and, when access was granted, after the token was
    authorized. *)
Theorem user_auth_no_callback_view w srv oreq w1 token db1 rc db2 n token' db3 :
  user_is_authenticated (user (request w)) = true ->
  initialize_server_request w = (Ok (Some srv, Some oreq), w1) ->
  fetch_request_token srv oreq (db w1) = (Ok token, db1) ->
  get_callback srv oreq db1 = (rc, db2) ->
  callback_of rc = None \/ callback_of rc = Some EmptyString ->
  method (request w1) = "POST" ->
  default EmptyString (session (request w1) !! "oauth") = key token ->
  py_int (default "0" (POST (request w1) !! "authorize_access")) = Ok n ->
  (n = 0 /\ token' = token /\ db3 = db2) \/
  (n <> 0 /\
   authorize_token srv token (user (request w1)) db2 = (Ok token', db3)) ->
  settings !! "OAUTH_CALLBACK_VIEW" = None ->
  oauth_user_auth w =
    (Raise (AttributeError "OAUTH_CALLBACK_VIEW"),
     with_request (set_session "oauth" EmptyString (request w1))
       (with_db db3 w1)).
Proof.
  intros Hlogin Hi Hf Hc Hcb Hm Hs Hint Hn Hset.
  apply String.eqb_eq in Hs.
  user_auth_to_fetch Hlogin Hi Hf.
  user_auth_to_try Hc Hm Hs.
  rewrite Hint.
  destruct Hn as [(-> & -> & ->)|[Hn Ha]].
  - cbn. destruct Hcb as [->| ->]; cbn; unfold bind; now rewrite Hset.
  - apply Z.eqb_neq in Hn. rewrite Hn.
    cbn [negb]. unfold bind at 1. unfold bind at 1.
    rewrite get_request_run. unfold bind at 1.
    erewrite on_db_run by (cbn; exact Ha).
    cbn. destruct Hcb as [->| ->]; cbn; unfold bind; now rewrite Hset.
Qed.

(** POST with an [authorize_access] field on which [int] raises, as it
    does with [ValueError] on text that is no integer: the exception is
    no [OAuthError], so the entry point raises it; the session entry is
    already emptied. *)
Theorem user_auth_bad_authorize_access w srv oreq w1 token db1 rc db2 e :
  user_is_authenticated (user (request w)) = true ->
  initialize_server_request w = (Ok (Some srv, Some oreq), w1) ->
  fetch_request_token srv oreq (db w1) = (Ok token, db1) ->
  get_callback srv oreq db1 = (rc, db2) ->
  method (request w1) = "POST" ->
  default EmptyString (session (request w1) !! "oauth") = key token ->
  py_int (default "0" (POST (request w1) !! "authorize_access")) = Raise e ->
  (forall message, e <> OAuthError message) ->
  oauth_user_auth w =
    (Raise e,
     with_request (set_session "oauth" EmptyString (request w1))
       (with_db db2 w1)).
Proof.
  intros Hlogin Hi Hf Hc Hm Hs Hint Hne.
  apply String.eqb_eq in Hs.
  user_auth_to_fetch Hlogin Hi Hf.
  user_auth_to_try Hc Hm Hs.
  rewrite Hint.
  destruct e; try reflexivity. now destruct (Hne message).
Qed.

(** A method other than GET and POST: the function ends without
    [return] and gives [None], after the token was fetched. *)
Theorem user_auth_other_method w srv oreq w1 token db1 rc db2 :
  user_is_authenticated (user (request w)) = true ->
  initialize_server_request w = (Ok (Some srv, Some oreq), w1) ->
  fetch_request_token srv oreq (db w1) = (Ok token, db1) ->
  get_callback srv oreq db1 = (rc, db2) ->
  method (request w1) <> "GET" ->
  method (request w1) <> "POST" ->
  oauth_user_auth w = (Ok None, with_db db2 w1).
Proof.
  intros Hlogin Hi Hf Hc Hget Hpost.
  apply String.eqb_neq in Hget. apply String.eqb_neq in Hpost.
  user_auth_to_fetch Hlogin Hi Hf.
  user_auth_to_method Hc. rewrite Hget, Hpost. reflexivity.
Qed.

(** The session and the database play no part in building the server. *)
Lemma initialize_server_request_session (w : World DB) k v d :
  initialize_server_request
    (with_request (set_session k v (request w)) (with_db d w)) =
  (fst (initialize_server_request w),
   with_request (set_session k v (request w)) (with_db d w)).
Proof.
  unfold initialize_server_request, bind, get_request, lift, ret.
  cbn [request with_request with_db set_session method absolute_uri META
       environ REQUEST POST GET].
  unfold REQUEST. cbn [POST GET].
  destruct (from_request _ _ _ _ _) as [[oreq|]|e]; reflexivity.
Qed.

(** The session entry serves once.  A matched POST leaves it empty; the
    same POST again, with no GET in between, is answered [Action not
    allowed.] as soon as the token fetched for it has a key that is not
    empty. *)
Theorem user_auth_post_twice w srv oreq w1 d token2 db4 rc2 db5 :
  user_is_authenticated (user (request w)) = true ->
  initialize_server_request w = (Ok (Some srv, Some oreq), w1) ->
  method (request w1) = "POST" ->
  fetch_request_token srv oreq d = (Ok token2, db4) ->
  get_callback srv oreq db4 = (rc2, db5) ->
  key token2 <> EmptyString ->
  oauth_user_auth
    (with_request (set_session "oauth" EmptyString (request w1))
       (with_db d w1)) =
    (Ok (Some (HttpResponse_new "Action not allowed.")),
     with_request (set_session "oauth" EmptyString (request w1))
       (with_db db5 w1)).
Proof.
  intros Hlogin Hi Hm Hf Hc Hkey.
  assert (w1 = w) as -> by (eapply initialize_server_request_pure; eauto).
  pose proof (initialize_server_request_session w "oauth" EmptyString d)
    as Hi2.
  rewrite Hi in Hi2. cbn [fst] in Hi2.
  refine (user_auth_session_mismatch _ srv oreq _ token2 db4 rc2 db5
            _ Hi2 Hf Hc Hm _).
  - exact Hlogin.
  - cbn [request with_request set_session session].
    rewrite lookup_insert_eq. cbn. congruence.
Qed.

End EndpointTheorems.

(** C8 at the scenario of section 8: consumer [ck1], PLAINTEXT
    signature, timestamp now, nonce [n1]. *)
Lemma request_token_success_witness :
  fst (oauth_request_token (oauth_lib := Scenario.lib)
         (Scenario.world Scenario.request_token_call)) =
    Ok (HttpResponse_new "oauth_token=rt0&oauth_token_secret=rts0") /\
  status_code (HttpResponse_new "oauth_token=rt0&oauth_token_secret=rts0")
    = 200.
Proof.
  destruct (request_token_success (oauth_lib := Scenario.lib)
              (Scenario.world Scenario.request_token_call)
              (Scenario.server_of Scenario.request_token_call)
              (Scenario.oauth_request_of Scenario.request_token_call)
              (Scenario.world Scenario.request_token_call)
              Scenario.rt0
              (Scenario.store_after_fetch Scenario.request_token_call))
    as (Hrun & Hstatus & _).
  - vm_compute. reflexivity.
  - vm_compute. reflexivity.
  - split; [exact (f_equal fst Hrun) | exact Hstatus].
Defined.

(** C4 at a failing input: a server that names the unknown token in its
    message, and a request whose token key is the byte 233.  The message
    is a byte string that is not ASCII, and each entry point raises
    [UnicodeDecodeError] where the claim promises a response of status
    401. *)
Lemma oauth_error_handler_raises_witness :
  encodable (Str ("Invalid request token: " +:+ Cases.high_byte)) = false /\
  fst (oauth_request_token (oauth_lib := Cases.naming_lib)
         (Scenario.world Cases.high_byte_call))
    = Raise (UnicodeDecodeError "'ascii' codec can't decode byte") /\
  fst (oauth_user_auth (site := Cases.naming_site)
         (Scenario.world
            (set_user (PyUser Scenario.alice) Cases.high_byte_call)))
    = Raise (UnicodeDecodeError "'ascii' codec can't decode byte").
Proof.
  assert (He : encodable
                 (Str ("Invalid request token: " +:+ Cases.high_byte)) = false)
    by reflexivity.
  destruct (oauth_error_handler_raises (site := Cases.naming_site)
              (Str ("Invalid request token: " +:+ Cases.high_byte)) He)
    as (Hrequest & _ & Huser & _).
  split; [exact He|]. split.
  - refine (f_equal fst
      (Hrequest (Scenario.world Cases.high_byte_call)
         (Cases.header_server_of Cases.high_byte_call)
         (Cases.header_request_of Cases.high_byte_call)
         (Scenario.world Cases.high_byte_call)
         Scenario.store _ _));
      vm_compute; reflexivity.
  - refine (f_equal fst
      (Huser
         (Scenario.world
            (set_user (PyUser Scenario.alice) Cases.high_byte_call))
         (Cases.header_server_of Cases.high_byte_call)
         (Cases.header_request_of Cases.high_byte_call)
         (Scenario.world
            (set_user (PyUser Scenario.alice) Cases.high_byte_call))
         Scenario.store _ _ _));
      vm_compute; reflexivity.
Defined.

(** On the reference server: an unknown consumer at the request-token
    endpoint and at the user-authorization endpoint, and a store that
    refuses the authorization a logged-in user grants. *)
Lemma encodable_oauth_errors_become_401_witness :
  (exists response,
     send_oauth_error (Str "InvalidConsumerError") = Ok response /\
     status_code response = 401 /\
     content response = "InvalidConsumerError" /\
     fst (oauth_request_token (oauth_lib := Scenario.lib)
            (Scenario.world Scenario.unknown_consumer_call))
       = Ok response /\
     fst (oauth_user_auth (site := Scenario.site)
            (Scenario.world
               (set_user (PyUser Scenario.alice)
                  Scenario.unknown_consumer_call)))
       = Ok (Some response)) /\
  (exists response,
     send_oauth_error (Str "TokenNotAuthorizedError") = Ok response /\
     status_code response = 401 /\
     content response = "TokenNotAuthorizedError" /\
     fst (oauth_user_auth (site := Scenario.refusing_site)
            (Scenario.world (Scenario.user_auth_post "rt0" "1" None)))
       = Ok (Some response)).
Proof.
  split.
  - destruct (encodable_oauth_errors_become_401 (site := Scenario.site)
                (Str "InvalidConsumerError") eq_refl)
      as (response & Hsend & Hst & Hco & Hrequest & _ & Huser & _).
    exists response.
    split; [exact Hsend|]. split; [exact Hst|]. split; [exact Hco|]. split.
    + refine (f_equal fst
        (Hrequest (Scenario.world Scenario.unknown_consumer_call)
           (Scenario.server_of Scenario.unknown_consumer_call)
           (Scenario.oauth_request_of Scenario.unknown_consumer_call)
           (Scenario.world Scenario.unknown_consumer_call)
           Scenario.store _ _));
        vm_compute; reflexivity.
    + refine (f_equal fst
        (Huser
           (Scenario.world
              (set_user (PyUser Scenario.alice)
                 Scenario.unknown_consumer_call))
           (Scenario.server_of Scenario.unknown_consumer_call)
           (Scenario.oauth_request_of Scenario.unknown_consumer_call)
           (Scenario.world
              (set_user (PyUser Scenario.alice)
                 Scenario.unknown_consumer_call))
           Scenario.store _ _ _));
        vm_compute; reflexivity.
  - destruct (encodable_oauth_errors_become_401 (site := Scenario.refusing_site)
                (Str "TokenNotAuthorizedError") eq_refl)
      as (response & Hsend & Hst & Hco & _ & _ & _ & Hauthorize).
    exists response.
    split; [exact Hsend|]. split; [exact Hst|]. split; [exact Hco|].
    refine (f_equal fst
      (Hauthorize
         (Scenario.world (Scenario.user_auth_post "rt0" "1" None))
         (Scenario.server_of (Scenario.user_auth_post "rt0" "1" None))
         (Scenario.oauth_request_of (Scenario.user_auth_post "rt0" "1" None))
         (Scenario.world (Scenario.user_auth_post "rt0" "1" None))
         Scenario.rt0
         (Scenario.store_after_fetch (Scenario.user_auth_post "rt0" "1" None))
         (Raise (OAuthError "Parameter not found: oauth_callback"))
         (Scenario.store_after_fetch (Scenario.user_auth_post "rt0" "1" None))
         1
         (Scenario.store_after_fetch (Scenario.user_auth_post "rt0" "1" None))
         _ _ _ _ _ _ _ _ _));
      first [vm_compute; reflexivity | discriminate].
Defined.

(** C3, the claim against the code: alice posts the authorization form
    while her session holds another token key, and the answer has status
    200 and no [WWW-Authenticate] header; she denies access on a request
    that names a callback, and the answer is a redirect of status 302 to
    the callback, with the blanks of the error text escaped and no
    [WWW-Authenticate] header. *)
Lemma oauth_user_auth_answers_without_401 :
  fst (oauth_user_auth (site := Scenario.site)
         (Scenario.world (Scenario.user_auth_post "stale" "1" None)))
    = Ok (Some (HttpResponse_new "Action not allowed.")) /\
  status_code (HttpResponse_new "Action not allowed.") = 200 /\
  headers (HttpResponse_new "Action not allowed.") !! "WWW-Authenticate"
    = None /\
  fst (oauth_user_auth (site := Scenario.site)
         (Scenario.world
            (Scenario.user_auth_post "rt0" "0" (Some "http://c.example/cb"))))
    = Ok (Some (HttpResponseRedirect
                  "http://c.example/cb?error=Access not granted by user.")) /\
  status_code
    (HttpResponseRedirect
       "http://c.example/cb?error=Access not granted by user.") = 302 /\
  headers
    (HttpResponseRedirect
       "http://c.example/cb?error=Access not granted by user.")
    !! "Location" =
    Some "http://c.example/cb?error=Access%20not%20granted%20by%20user." /\
  headers
    (HttpResponseRedirect
       "http://c.example/cb?error=Access not granted by user.")
    !! "WWW-Authenticate" = None.
Proof. repeat split; vm_compute; reflexivity. Qed.

(** C3 as amended, on the reference server: the answers to an unknown
    consumer, to a request without parameters, the session mismatch and
    the denial with a callback. *)
Lemma oauth_failure_responses_witness :
  (exists response,
     send_oauth_error (Str "InvalidConsumerError") = Ok response /\
     status_code response = 401 /\
     headers response !! "WWW-Authenticate" =
       Some ("OAuth realm=" +:+ Py.dquote +:+ "OAuth" +:+ Py.dquote) /\
     oauth_user_auth (site := Scenario.site)
       (Scenario.world
          (set_user (PyUser Scenario.alice) Scenario.unknown_consumer_call))
       = (Ok (Some response),
          with_db Scenario.store
            (Scenario.world
               (set_user (PyUser Scenario.alice)
                  Scenario.unknown_consumer_call)))) /\
  oauth_user_auth (site := Scenario.site)
    (Scenario.world (set_user (PyUser Scenario.alice) Scenario.blank))
    = (Ok (Some INVALID_PARAMS_RESPONSE),
       Scenario.world (set_user (PyUser Scenario.alice) Scenario.blank)) /\
  (exists response,
     oauth_user_auth (site := Scenario.site)
       (Scenario.world (Scenario.user_auth_post "stale" "1" None))
       = (Ok (Some response),
          with_db
            (Scenario.store_after_fetch
               (Scenario.user_auth_post "stale" "1" None))
            (Scenario.world (Scenario.user_auth_post "stale" "1" None))) /\
     status_code response = 200 /\
     content response = "Action not allowed." /\
     headers response !! "WWW-Authenticate" = None) /\
  (exists response,
     oauth_user_auth (site := Scenario.site)
       (Scenario.world
          (Scenario.user_auth_post "rt0" "0" (Some "http://c.example/cb")))
       = (Ok (Some response),
          with_request
            (set_session "oauth" EmptyString
               (Scenario.user_auth_post "rt0" "0"
                  (Some "http://c.example/cb")))
            (with_db
               (Scenario.store_after_fetch
                  (Scenario.user_auth_post "rt0" "0"
                     (Some "http://c.example/cb")))
               (Scenario.world
                  (Scenario.user_auth_post "rt0" "0"
                     (Some "http://c.example/cb"))))) /\
     status_code response = 302 /\
     headers response !! "Location"
       = Some (iri_to_uri
                 ("http://c.example/cb" +:+
                  "?error=Access not granted by user.")) /\
     headers response !! "WWW-Authenticate" = None).
Proof.
  destruct (oauth_failure_responses (site := Scenario.site))
    as (Hsend & _ & _ & Hmissing & Hfetch & _ & Hmismatch & Hdenied).
  split; [|split; [|split]].
  - destruct (send_oauth_error_Ok (Str "InvalidConsumerError") eq_refl)
      as [response Hr].
    exists response. split; [exact Hr|].
    destruct (Hsend _ _ Hr) as [Hst Hh].
    split; [exact Hst|]. split; [exact Hh|].
    refine (Hfetch
              (Scenario.world
                 (set_user (PyUser Scenario.alice)
                    Scenario.unknown_consumer_call))
              (Scenario.server_of Scenario.unknown_consumer_call)
              (Scenario.oauth_request_of Scenario.unknown_consumer_call)
              (Scenario.world
                 (set_user (PyUser Scenario.alice)
                    Scenario.unknown_consumer_call))
              (Str "InvalidConsumerError") Scenario.store response
              _ _ _ Hr);
      vm_compute; reflexivity.
  - refine (proj1 (Hmissing
              (Scenario.world (set_user (PyUser Scenario.alice) Scenario.blank))
              _ _));
      vm_compute; reflexivity.
  - refine (Hmismatch
              (Scenario.world (Scenario.user_auth_post "stale" "1" None))
              (Scenario.server_of (Scenario.user_auth_post "stale" "1" None))
              (Scenario.oauth_request_of
                 (Scenario.user_auth_post "stale" "1" None))
              (Scenario.world (Scenario.user_auth_post "stale" "1" None))
              Scenario.rt0
              (Scenario.store_after_fetch
                 (Scenario.user_auth_post "stale" "1" None))
              (Raise (OAuthError "Parameter not found: oauth_callback"))
              (Scenario.store_after_fetch
                 (Scenario.user_auth_post "stale" "1" None))
              _ _ _ _ _ _);
      first [vm_compute; reflexivity | vm_compute; discriminate].
  - refine (Hdenied
              (Scenario.world
                 (Scenario.user_auth_post "rt0" "0"
                    (Some "http://c.example/cb")))
              (Scenario.server_of
                 (Scenario.user_auth_post "rt0" "0"
                    (Some "http://c.example/cb")))
              (Scenario.oauth_request_of
                 (Scenario.user_auth_post "rt0" "0"
                    (Some "http://c.example/cb")))
              (Scenario.world
                 (Scenario.user_auth_post "rt0" "0"
                    (Some "http://c.example/cb")))
              Scenario.rt0
              (Scenario.store_after_fetch
                 (Scenario.user_auth_post "rt0" "0"
                    (Some "http://c.example/cb")))
              "http://c.example/cb"
              (Scenario.store_after_fetch
                 (Scenario.user_auth_post "rt0" "0"
                    (Some "http://c.example/cb")))
              _ _ _ _ _ _ _ _);
      first [vm_compute; reflexivity | discriminate].
Defined.

(** ** [OAuthAuthentication] *)

Section AuthenticationTheorems.

Context {oauth_lib : OAuthLib}.

(** The world after [print response]. *)
Lemma print_run (response : HttpResponse) (w : World DB) :
  print response w =
    (Ok tt, {| request := request w; db := db w;
               stdout := stdout w ++ [response] |}).
Proof. reflexivity. Qed.

(** A request that fails the pre-check is not authenticated, and nothing
    is validated. *)
Lemma oauth_is_authenticated_invalid self (w : World DB) :
  OAuthAuthentication.is_valid_request (request w) = false ->
  OAuthAuthentication.is_authenticated self w = (Ok false, w).
Proof.
  intros Hv. unfold OAuthAuthentication.is_authenticated.
  rewrite (bind_Ok _ _ _ _ _ (get_request_run w)). now rewrite Hv.
Qed.

(** The run of [is_authenticated] on a request that passes the
    pre-check, by the outcome of [validate_token]. *)
Lemma oauth_is_authenticated_run self (w : World DB) r w' :
  OAuthAuthentication.is_valid_request (request w) = true ->
  OAuthAuthentication.validate_token true true w = (r, w') ->
  OAuthAuthentication.is_authenticated self w =
    match r with
    | Ok (Some _, Some token, _) =>
        (Ok true,
         with_request
           (set_throttle_extra (consumer_id (consumer token))
              (set_user (token_user token) (request w'))) w')
    | Ok _ => (Ok false, w')
    | Raise (OAuthError message) =>
        match send_oauth_error message with
        | Ok response =>
            (Ok false,
             {| request := request w'; db := db w';
                stdout := stdout w' ++ [response] |})
        | Raise e => (Raise e, w')
        end
    | Raise e => (Raise e, w')
    end.
Proof.
  intros Hv Hr. unfold OAuthAuthentication.is_authenticated.
  rewrite (bind_Ok _ _ _ _ _ (get_request_run w)). rewrite Hv.
  unfold bind at 1. unfold try_except_OAuthError at 1. unfold bind at 1.
  rewrite Hr. destruct r as [[[c t] p]|e].
  - unfold ret at 1. cbn beta iota.
    destruct c as [c|], t as [t|]; reflexivity.
  - destruct e; try reflexivity.
    unfold bind, lift. destruct (send_oauth_error message); reflexivity.
Qed.

(** C2, the claim against the code.  On a request that passes the
    pre-check, an [OAuthError] of token validation is caught, and the
    handler prints what [send_oauth_error] builds for it.  When the
    message of the error is a byte string with a byte above 127, the
    encoding inside [send_oauth_error] raises [UnicodeDecodeError]: the
    exception leaves [is_authenticated], which returns nothing, and
    nothing is printed. *)
Theorem oauth_error_handler_raises_in_is_authenticated
    self (w : World DB) message w' :
  OAuthAuthentication.is_valid_request (request w) = true ->
  OAuthAuthentication.validate_token true true w
    = (Raise (OAuthError message), w') ->
  encodable message = false ->
  OAuthAuthentication.is_authenticated self w =
    (Raise (UnicodeDecodeError "'ascii' codec can't decode byte"), w').
Proof.
  intros Hv Hr He.
  rewrite (oauth_is_authenticated_run self w _ _ Hv Hr).
  now rewrite (send_oauth_error_Raise _ He).
Qed.

(** When token validation raises an [OAuthError] whose message can be
    encoded (text, or a byte string of ASCII characters),
    [is_authenticated] does not raise: it returns [False].  On a request
    that passes the pre-check (the only ones validated) the error is
    caught, the answer [send_oauth_error] builds for it, of status 401,
    is printed, and the request and the database are as validation left
    them. *)
Theorem encodable_oauth_error_is_not_authenticated self (w : World DB) message w' :
  OAuthAuthentication.validate_token true true w
    = (Raise (OAuthError message), w') ->
  encodable message = true ->
  fst (OAuthAuthentication.is_authenticated self w) = Ok false /\
  exists response,
    send_oauth_error message = Ok response /\
    status_code response = 401 /\
    (OAuthAuthentication.is_valid_request (request w) = true ->
     OAuthAuthentication.is_authenticated self w =
       (Ok false,
        {| request := request w'; db := db w';
           stdout := stdout w' ++ [response] |})).
Proof.
  intros Hr He. destruct (send_oauth_error_Ok _ He) as [response Hsend].
  destruct (send_oauth_error_inv _ _ Hsend) as (_ & Hst & _).
  split.
  - destruct (OAuthAuthentication.is_valid_request (request w)) eqn:Hv.
    + rewrite (oauth_is_authenticated_run self w _ _ Hv Hr).
      now rewrite Hsend.
    + now rewrite (oauth_is_authenticated_invalid self w Hv).
  - exists response. split; [exact Hsend|]. split; [exact Hst|].
    intros Hv. rewrite (oauth_is_authenticated_run self w _ _ Hv Hr).
    now rewrite Hsend.
Qed.

(** C6.  When a request passes the pre-check and validation succeeds
    with a consumer and a token (neither is [None]), [is_authenticated]
    returns [True], [request.user] is the user of the token and
    [request.throttle_extra] is the id of the consumer of the token;
    nothing else of the request changes. *)
Theorem oauth_success_binds_user self (w : World DB) c token parameters w' :
  OAuthAuthentication.is_valid_request (request w) = true ->
  OAuthAuthentication.validate_token true true w
    = (Ok (Some c, Some token, parameters), w') ->
  OAuthAuthentication.is_authenticated self w =
    (Ok true,
     with_request
       (set_throttle_extra (consumer_id (consumer token))
          (set_user (token_user token) (request w'))) w') /\
  user (request (snd (OAuthAuthentication.is_authenticated self w)))
    = token_user token /\
  throttle_extra (request (snd (OAuthAuthentication.is_authenticated self w)))
    = Some (consumer_id (consumer token)).
Proof.
  intros Hv Hr.
  rewrite (oauth_is_authenticated_run self w _ _ Hv Hr).
  repeat split.
Qed.

(** What [validate_token] does, whatever the flags: it builds the
    server and hands the request to [verify_request]. *)
Lemma validate_token_run (a b : bool) (w : World DB) srv oreq w1 :
  initialize_server_request w = (Ok (Some srv, Some oreq), w1) ->
  OAuthAuthentication.validate_token a b w
    = on_db (verify_request srv oreq) w1.
Proof.
  intros Hi. unfold OAuthAuthentication.validate_token.
  now rewrite (bind_Ok _ _ _ _ _ Hi).
Qed.

(** C10.  [validate_token] does not look at [check_timestamp] and
    [check_nonce]: for every pair of flags its run is the run with both
    flags true, on every world. *)
Theorem validate_token_ignores_flags (a b : bool) (w : World DB) :
  OAuthAuthentication.validate_token a b w =
  OAuthAuthentication.validate_token true true w.
Proof. reflexivity. Qed.

End AuthenticationTheorems.

(** C2 at a failing input: the API call whose header carries the token
    key of the byte 233, on a server that names the unknown token in its
    message.  The call passes the pre-check, validation raises an
    [OAuthError], and [is_authenticated] raises [UnicodeDecodeError]
    with nothing printed. *)
Lemma oauth_error_handler_raises_in_is_authenticated_witness :
  OAuthAuthentication.is_valid_request Cases.high_byte_call = true /\
  fst (OAuthAuthentication.validate_token (oauth_lib := Cases.naming_lib)
         true true (Scenario.world Cases.high_byte_call))
    = Raise (OAuthError (Str ("Invalid access token: " +:+ Cases.high_byte))) /\
  OAuthAuthentication.is_authenticated (oauth_lib := Cases.naming_lib)
    (OAuthAuthentication.init None) (Scenario.world Cases.high_byte_call)
    = (Raise (UnicodeDecodeError "'ascii' codec can't decode byte"),
       Scenario.world Cases.high_byte_call).
Proof.
  assert (Hv : OAuthAuthentication.is_valid_request Cases.high_byte_call
               = true) by (vm_compute; reflexivity).
  assert (Hr : OAuthAuthentication.validate_token
                 (oauth_lib := Cases.naming_lib) true true
                 (Scenario.world Cases.high_byte_call)
               = (Raise (OAuthError
                           (Str ("Invalid access token: " +:+
                                 Cases.high_byte))),
                  Scenario.world Cases.high_byte_call))
    by (vm_compute; reflexivity).
  split; [exact Hv|]. split; [exact (f_equal fst Hr)|].
  exact (oauth_error_handler_raises_in_is_authenticated
           (oauth_lib := Cases.naming_lib)
           (OAuthAuthentication.init None)
           (Scenario.world Cases.high_byte_call)
           (Str ("Invalid access token: " +:+ Cases.high_byte))
           (Scenario.world Cases.high_byte_call)
           Hv Hr eq_refl).
Defined.

(** On the reference server: an API call signed for a token the store
    does not know. *)
Lemma encodable_oauth_error_is_not_authenticated_witness :
  OAuthAuthentication.is_valid_request Scenario.bad_token_call = true /\
  fst (OAuthAuthentication.is_authenticated (oauth_lib := Scenario.lib)
         (OAuthAuthentication.init None)
         (Scenario.world Scenario.bad_token_call)) = Ok false /\
  exists response,
    send_oauth_error (Str "TokenNotFoundError") = Ok response /\
    status_code response = 401 /\
    stdout (snd (OAuthAuthentication.is_authenticated
                   (oauth_lib := Scenario.lib)
                   (OAuthAuthentication.init None)
                   (Scenario.world Scenario.bad_token_call)))
      = [response].
Proof.
  assert (OAuthAuthentication.is_valid_request Scenario.bad_token_call = true)
    as Hv by (vm_compute; reflexivity).
  destruct (encodable_oauth_error_is_not_authenticated (oauth_lib := Scenario.lib)
              (OAuthAuthentication.init None)
              (Scenario.world Scenario.bad_token_call)
              (Str "TokenNotFoundError")
              (Scenario.world Scenario.bad_token_call))
    as [Hfalse (response & Hsend & Hst & Hrun)].
  - vm_compute. reflexivity.
  - reflexivity.
  - split; [exact Hv|]. split; [exact Hfalse|].
    exists response. split; [exact Hsend|]. split; [exact Hst|].
    exact (f_equal (fun p => stdout (snd p)) (Hrun Hv)).
Defined.

(** C6 on the reference server: an API call signed with the access
    token [at1], which alice granted to the consumer [ck1] of id 7. *)
Lemma oauth_success_binds_user_witness :
  fst (OAuthAuthentication.is_authenticated (oauth_lib := Scenario.lib)
         (OAuthAuthentication.init None)
         (Scenario.world Scenario.api_call)) = Ok true /\
  user (request (snd (OAuthAuthentication.is_authenticated
                        (oauth_lib := Scenario.lib)
                        (OAuthAuthentication.init None)
                        (Scenario.world Scenario.api_call))))
    = PyUser Scenario.alice /\
  throttle_extra
    (request (snd (OAuthAuthentication.is_authenticated
                     (oauth_lib := Scenario.lib)
                     (OAuthAuthentication.init None)
                     (Scenario.world Scenario.api_call))))
    = Some 7.
Proof.
  destruct (oauth_success_binds_user (oauth_lib := Scenario.lib)
              (OAuthAuthentication.init None)
              (Scenario.world Scenario.api_call)
              Scenario.ck1 Scenario.at1 Scenario.api_params
              (snd (OAuthAuthentication.validate_token
                      (oauth_lib := Scenario.lib) true true
                      (Scenario.world Scenario.api_call))))
    as (Hrun & Huser & Hthrottle).
  - vm_compute. reflexivity.
  - vm_compute. reflexivity.
  - split; [exact (f_equal fst Hrun)|]. split; [exact Huser | exact Hthrottle].
Defined.

(** ** The pre-check [is_valid_request] *)

Lemma is_in_str_spec l :
  OAuthAuthentication.is_in_str l = true <->
  forall p, In p OAuthAuthentication.must_have -> occurs_in p l.
Proof.
  unfold OAuthAuthentication.is_in_str. rewrite forallb_forall.
  split; intros Hall p Hp; apply contains_spec; auto.
Qed.

Lemma is_in_dict_spec (l : gmap string string) :
  OAuthAuthentication.is_in_dict l = true <->
  forall p, In p OAuthAuthentication.must_have -> is_Some (l !! p).
Proof.
  unfold OAuthAuthentication.is_in_dict. rewrite forallb_forall.
  split; intros Hall p Hp.
  - eapply bool_decide_eq_true_1. eauto.
  - apply bool_decide_eq_true_2. auto.
Qed.

(** ** Occurrences *)

Lemma str_app_assoc (a b c : string) : (a +:+ b) +:+ c = a +:+ b +:+ c.
Proof. induction a as [|x a IH]; [reflexivity|]. rewrite !app_cons. now rewrite IH. Qed.

Lemma str_app_empty_r (a : string) : a +:+ EmptyString = a.
Proof. induction a as [|x a IH]; [reflexivity|]. rewrite app_cons. now rewrite IH. Qed.

Lemma occurs_in_refl s : occurs_in s s.
Proof. exists EmptyString, EmptyString. now rewrite app_empty, str_app_empty_r. Qed.

Lemma occurs_in_app p pre post : occurs_in p (pre +:+ p +:+ post).
Proof. now exists pre, post. Qed.

Lemma occurs_in_trans a b c : occurs_in a b -> occurs_in b c -> occurs_in a c.
Proof.
  intros (p1 & q1 & ->) (p2 & q2 & ->).
  exists (p2 +:+ p1), (q1 +:+ q2). now rewrite !str_app_assoc.
Qed.

Lemma rev_app_app (a b c : string) :
  String.rev_app a b +:+ c = String.rev_app a (b +:+ c).
Proof. revert b. induction a as [|x a IH]; intros b; [reflexivity|]. apply IH. Qed.

(** The two pieces of a split, with the separator between them, are the
    string that was split. *)
Lemma split1_go_two sep acc s a b :
  Py.split1_go sep acc s = [a; b] ->
  String.rev acc +:+ s = a +:+ String sep b.
Proof.
  revert acc. induction s as [|c s IH]; intros acc; cbn [Py.split1_go].
  - discriminate.
  - destruct (Ascii.eqb_spec c sep) as [->|Hne].
    + now intros [= <- <-].
    + intros Hs. apply IH in Hs. rewrite <- Hs.
      unfold String.rev. cbn [String.rev_app]. now rewrite !rev_app_app.
Qed.

Lemma split1_two sep s a b :
  Py.split1 sep s = [a; b] -> s = a +:+ String sep b.
Proof. intros Hs. now apply split1_go_two in Hs. Qed.

(** Every piece of a full split occurs in the string that was split. *)
Lemma split_go_occurs sep acc s piece :
  piece ∈ Py.split_go sep acc s -> occurs_in piece (String.rev acc +:+ s).
Proof.
  revert acc. induction s as [|c s IH]; intros acc; cbn [Py.split_go].
  - intros ->%list_elem_of_singleton. rewrite str_app_empty_r.
    apply occurs_in_refl.
  - destruct (Ascii.eqb_spec c sep) as [->|Hne].
    + intros [->|Hin]%elem_of_cons.
      * exists EmptyString, (String sep s). now rewrite app_empty.
      * apply IH in Hin. unfold String.rev in Hin. cbn [String.rev_app] in Hin.
        rewrite app_empty in Hin.
        eapply occurs_in_trans; [exact Hin|].
        exists (String.rev acc +:+ String sep EmptyString), EmptyString.
        now rewrite str_app_empty_r, str_app_assoc.
    + intros Hin. apply IH in Hin.
      unfold String.rev in *. cbn [String.rev_app] in Hin.
      rewrite rev_app_app in Hin. rewrite rev_app_app. exact Hin.
Qed.

Lemma lstrip_occurs s : occurs_in (Py.lstrip s) s.
Proof.
  induction s as [|c s IH]; cbn [Py.lstrip]; [apply occurs_in_refl|].
  destruct (Ascii.is_space c); [|apply occurs_in_refl].
  eapply occurs_in_trans; [exact IH|].
  exists (String c EmptyString), EmptyString.
  now rewrite str_app_empty_r.
Qed.

Lemma rstrip_prefix s : exists post, s = Py.rstrip s +:+ post.
Proof.
  induction s as [|c s [post IH]]; cbn [Py.rstrip]; [now exists EmptyString|].
  destruct (Py.rstrip s) as [|d r] eqn:Hr.
  - destruct (Ascii.is_space c).
    + now exists (String c s).
    + exists s. reflexivity.
  - exists post. rewrite app_cons. now rewrite <- IH.
Qed.

Lemma strip_occurs s : occurs_in (Py.strip s) s.
Proof.
  unfold Py.strip. eapply occurs_in_trans; [|apply lstrip_occurs].
  destruct (rstrip_prefix (Py.lstrip s)) as [post Hp].
  exists EmptyString, post. now rewrite app_empty.
Qed.

(** A parameter name of the header occurs in the header. *)
Lemma header_param_occurs header k :
  is_Some (Header.params header !! k) -> occurs_in k header.
Proof.
  unfold Header.params. intros [v Hv].
  destruct (Py.split1 " " (Py.strip header)) as [|scheme [|rest [|]]] eqn:Hs;
    try (rewrite lookup_empty in Hv; discriminate).
  destruct (String.eqb scheme "OAuth");
    [|rewrite lookup_empty in Hv; discriminate].
  apply elem_of_list_to_map_2, list_elem_of_omap in Hv
    as (part & Hpart & Hparse).
  unfold Header.parse_pair in Hparse.
  destruct (Py.split1 "=" (Py.strip part)) as [|k' [|v' [|]]] eqn:Hkv;
    try discriminate.
  injection Hparse as -> _.
  apply split1_two in Hkv. apply split1_two in Hs.
  assert (occurs_in k (Py.strip part)) as Hk.
  { rewrite Hkv. exists EmptyString, (String "=" v'). now rewrite app_empty. }
  apply (occurs_in_trans _ _ _ Hk).
  apply (occurs_in_trans _ _ _ (strip_occurs part)).
  apply split_go_occurs in Hpart. unfold String.rev in Hpart.
  cbn [String.rev_app] in Hpart. rewrite app_empty in Hpart.
  apply (occurs_in_trans _ _ _ Hpart).
  apply (occurs_in_trans rest (Py.strip header) header).
  - rewrite Hs. exists (scheme +:+ " "), EmptyString.
    now rewrite str_app_empty_r, str_app_assoc.
  - apply strip_occurs.
Qed.

(** The code accepts every request the pre-check of the spec accepts:
    the substring test can only accept more. *)
Lemma spec_is_valid_request_accepted (request : HttpRequest) :
  spec_is_valid_request request = true ->
  OAuthAuthentication.is_valid_request request = true.
Proof.
  unfold spec_is_valid_request, OAuthAuthentication.is_valid_request.
  rewrite !orb_true_iff. intros [Hh|Hq]; [left|now right].
  apply is_in_str_spec. intros p Hp.
  apply header_param_occurs. now apply is_in_dict_spec.
Qed.

(** The pre-check as the code has it.  The required names are six.
    [is_valid_request] holds exactly when each of them occurs
    as a substring of the raw Authorization header value, or each of
    them is a key of the combined query and body parameters; so a
    request in which some name occurs nowhere in the header and some
    name is no key of the parameters is not accepted, even when the two
    sources together hold all six. *)
Theorem is_valid_request_by_substring :
  OAuthAuthentication.must_have =
    ["oauth_consumer_key"; "oauth_token"; "oauth_signature";
     "oauth_signature_method"; "oauth_timestamp"; "oauth_nonce"] /\
  (forall request : HttpRequest,
     OAuthAuthentication.is_valid_request request = true <->
     (forall p, In p OAuthAuthentication.must_have ->
        occurs_in p
          (default EmptyString (META request !! "HTTP_AUTHORIZATION"))) \/
     (forall p, In p OAuthAuthentication.must_have ->
        is_Some (REQUEST request !! p))) /\
  (forall (request : HttpRequest) p q,
     In p OAuthAuthentication.must_have ->
     In q OAuthAuthentication.must_have ->
     Py.contains p (default EmptyString (META request !! "HTTP_AUTHORIZATION"))
       = false ->
     REQUEST request !! q = None ->
     OAuthAuthentication.is_valid_request request = false).
Proof.
  split; [reflexivity|]. split.
  - intros request. unfold OAuthAuthentication.is_valid_request.
    now rewrite orb_true_iff, is_in_str_spec, is_in_dict_spec.
  - intros request p q Hp Hq Hnp Hnq.
    unfold OAuthAuthentication.is_valid_request. apply orb_false_iff. split.
    + apply not_true_is_false. rewrite is_in_str_spec. intros Hall.
      apply Hall, contains_spec in Hp. congruence.
    + apply not_true_is_false. rewrite is_in_dict_spec. intros Hall.
      apply Hall in Hq. rewrite Hnq in Hq. now destruct Hq.
Qed.

(** A request that holds three names in the header and the other three
    in the query is not accepted. *)
Lemma is_valid_request_by_substring_witness :
  OAuthAuthentication.is_valid_request Scenario.split_call = false.
Proof.
  destruct is_valid_request_by_substring as (_ & _ & Hsplit).
  apply (Hsplit Scenario.split_call "oauth_timestamp" "oauth_nonce");
    vm_compute; auto 10.
Defined.

(** C5, the claim against the code: a header with five parameters,
    [oauth_signature] not among them, and no query or body parameter.
    The six names are not all parameters of the header, and the
    pre-check of the spec refuses the request; the code accepts it,
    because [p in auth_params] is a substring test on the raw header
    and [oauth_signature] is a substring of
    [oauth_signature_method]. *)
Lemma is_valid_request_accepts_five_parameters :
  Header.params Scenario.five_parameter_header !! "oauth_signature" = None /\
  size (Header.params Scenario.five_parameter_header) = 5%nat /\
  REQUEST (Scenario.with_header Scenario.five_parameter_header Scenario.blank)
    = ∅ /\
  spec_is_valid_request
    (Scenario.with_header Scenario.five_parameter_header Scenario.blank)
    = false /\
  OAuthAuthentication.is_valid_request
    (Scenario.with_header Scenario.five_parameter_header Scenario.blank)
    = true.
Proof. repeat split; vm_compute; reflexivity. Qed.

(** * Further properties *)

(** ** Splits *)

(** A separator that occurs gives two pieces. *)
Lemma split1_go_present sep acc s :
  Py.contains (String sep EmptyString) s = true ->
  exists a b, Py.split1_go sep acc s = [a; b].
Proof.
  revert acc. induction s as [|c s IH]; intros acc Hc.
  - discriminate.
  - cbn [Py.split1_go]. destruct (Ascii.eqb_spec c sep) as [->|Hne]; [eauto|].
    apply IH. cbn [Py.contains] in Hc. apply orb_true_iff in Hc as [Hp|Hs].
    + apply prefix_spec in Hp as [post Hp]. rewrite app_cons in Hp. congruence.
    + exact Hs.
Qed.

(** Splitting [a], the separator, [b] gives [a] and [b] back when the
    separator does not occur in [a]: only the first occurrence splits. *)
Lemma split1_go_app sep acc a b :
  Py.contains (String sep EmptyString) a = false ->
  Py.split1_go sep acc (a +:+ String sep b) = [String.rev acc +:+ a; b].
Proof.
  revert acc. induction a as [|c a IH]; intros acc Hc.
  - rewrite app_empty, str_app_empty_r. cbn [Py.split1_go].
    now rewrite Ascii.eqb_refl.
  - rewrite app_cons. cbn [Py.split1_go].
    cbn [Py.contains] in Hc. apply orb_false_iff in Hc as [Hp Hs].
    destruct (Ascii.eqb_spec c sep) as [->|Hne].
    + assert (String.prefix (String sep EmptyString) (String sep a) = true)
        as Ht by (apply prefix_spec; now exists a).
      congruence.
    + rewrite (IH _ Hs). unfold String.rev. cbn [String.rev_app].
      now rewrite !rev_app_app.
Qed.

Lemma split1_app sep a b :
  Py.contains (String sep EmptyString) a = false ->
  Py.split1 sep (a +:+ String sep b) = [a; b].
Proof. intros Hc. unfold Py.split1. now rewrite (split1_go_app _ _ _ _ Hc). Qed.

(** ** [HttpBasicAuthentication.is_authenticated], case by case *)

(** The verdict on the answer [v] of the credential check. *)
Lemma basic_verdict v :
  negb (py_in (py_or v PyAnonymousUser) [PyBool false; PyAnonymousUser]) =
  truthy v && negb (py_eq v PyAnonymousUser).
Proof. destruct v as [|[]| |]; reflexivity. Qed.

(** The run on a header that parses, by the answer of the credential
    check. *)
Lemma basic_parsed_verdict self (request : HttpRequest)
    h authmeth auth cred username password :
  META request !! "HTTP_AUTHORIZATION" = Some h ->
  h <> EmptyString ->
  Py.split1 " " h = [authmeth; auth] ->
  Py.lower authmeth = "basic" ->
  Base64.decode (Py.strip auth) = Ok cred ->
  Py.split1 ":" cred = [username; password] ->
  let v := HttpBasicAuthentication.auth_func self username password in
  HttpBasicAuthentication.is_authenticated self request =
    (Ok (truthy v && negb (py_eq v PyAnonymousUser)),
     set_user (if truthy v then v else PyAnonymousUser) request).
Proof.
  intros Hh Hne Hsp Hlow Hdec Hcred v.
  rewrite (basic_parsed self request h authmeth auth cred username password)
    by assumption.
  fold v. now rewrite basic_verdict.
Qed.

(** On a header that parses, [is_authenticated] returns [True] exactly
    when the answer of the credential check is true and is no
    [AnonymousUser]; [request.user] is then that answer, and
    [AnonymousUser] when the answer is false. *)
Theorem basic_authenticated_by_auth_func self (request : HttpRequest)
    h authmeth auth cred username password :
  META request !! "HTTP_AUTHORIZATION" = Some h ->
  h <> EmptyString ->
  Py.split1 " " h = [authmeth; auth] ->
  Py.lower authmeth = "basic" ->
  Base64.decode (Py.strip auth) = Ok cred ->
  Py.split1 ":" cred = [username; password] ->
  let v := HttpBasicAuthentication.auth_func self username password in
  HttpBasicAuthentication.is_authenticated self request =
    (Ok (truthy v && negb (py_eq v PyAnonymousUser)),
     set_user (if truthy v then v else PyAnonymousUser) request).
Proof. apply basic_parsed_verdict. Qed.

(** With the default credential check, [django_auth], a header that
    parses authenticates exactly the users of the table whose password
    checks; an unknown user and a wrong password get the same answer,
    [False] with [request.user] an [AnonymousUser]. *)
Theorem basic_django_auth users realm (request : HttpRequest)
    h authmeth auth cred username password :
  META request !! "HTTP_AUTHORIZATION" = Some h ->
  h <> EmptyString ->
  Py.split1 " " h = [authmeth; auth] ->
  Py.lower authmeth = "basic" ->
  Base64.decode (Py.strip auth) = Ok cred ->
  Py.split1 ":" cred = [username; password] ->
  HttpBasicAuthentication.is_authenticated
    (HttpBasicAuthentication.init users None realm) request =
    match users !! username with
    | Some account =>
        if check_password account password
        then (Ok true, set_user (PyUser (account_user account)) request)
        else (Ok false, set_user PyAnonymousUser request)
    | None => (Ok false, set_user PyAnonymousUser request)
    end.
Proof.
  intros Hh Hne Hsp Hlow Hdec Hcred.
  rewrite (basic_parsed_verdict _ request h authmeth auth cred
             username password) by assumption.
  cbn [HttpBasicAuthentication.init HttpBasicAuthentication.auth_func
       default from_option].
  unfold django_auth. destruct (users !! username) as [account|];
    [destruct (check_password account password)|]; reflexivity.
Qed.

Lemma basic_not_basic self (request : HttpRequest) :
  (META request !! "HTTP_AUTHORIZATION" = None \/
   META request !! "HTTP_AUTHORIZATION" = Some EmptyString \/
   exists h authmeth auth,
     META request !! "HTTP_AUTHORIZATION" = Some h /\
     Py.split1 " " h = [authmeth; auth] /\
     Py.lower authmeth <> "basic") ->
  HttpBasicAuthentication.is_authenticated self request = (Ok false, request).
Proof.
  unfold HttpBasicAuthentication.is_authenticated, bind, get, lift.
  intros [Hh|[Hh|(h & authmeth & auth & Hh & Hsp & Hlow)]]; rewrite Hh;
    try reflexivity.
  destruct h as [|c h]; [reflexivity|]. rewrite Hsp. cbn [unpack2].
  apply String.eqb_neq in Hlow. now rewrite Hlow.
Qed.

(** No header, an empty header, or a scheme that is not [basic] in any
    letter case: the answer is [False] and the request is untouched. *)
Theorem basic_other_scheme_untouched self (request : HttpRequest) :
  (META request !! "HTTP_AUTHORIZATION" = None \/
   META request !! "HTTP_AUTHORIZATION" = Some EmptyString \/
   exists h authmeth auth,
     META request !! "HTTP_AUTHORIZATION" = Some h /\
     Py.split1 " " h = [authmeth; auth] /\
     Py.lower authmeth <> "basic") ->
  HttpBasicAuthentication.is_authenticated self request = (Ok false, request).
Proof. apply basic_not_basic. Qed.

(** The password may hold colons: the credentials split at the first
    colon only, and the credential check receives everything after it. *)
Theorem basic_password_with_colons self (request : HttpRequest)
    h authmeth auth username password :
  META request !! "HTTP_AUTHORIZATION" = Some h ->
  h <> EmptyString ->
  Py.split1 " " h = [authmeth; auth] ->
  Py.lower authmeth = "basic" ->
  Base64.decode (Py.strip auth) = Ok (username +:+ String ":" password) ->
  Py.contains ":" username = false ->
  let v := HttpBasicAuthentication.auth_func self username password in
  HttpBasicAuthentication.is_authenticated self request =
    (Ok (truthy v && negb (py_eq v PyAnonymousUser)),
     set_user (if truthy v then v else PyAnonymousUser) request).
Proof.
  intros Hh Hne Hsp Hlow Hdec Hcolon.
  apply (basic_parsed_verdict self request h authmeth auth
           (username +:+ String ":" password)); try assumption.
  now apply split1_app.
Qed.

(** [is_authenticated] raises exactly on a header that is not empty and
    either holds no space, or has the scheme [basic] and a payload that
    does not decode or decodes to credentials without a colon. *)
Theorem basic_raises_exactly_when self (request : HttpRequest) :
  is_Ok (fst (HttpBasicAuthentication.is_authenticated self request)) = false
  <->
  exists h,
    META request !! "HTTP_AUTHORIZATION" = Some h /\ h <> EmptyString /\
    (Py.contains " " h = false \/
     exists authmeth auth,
       Py.split1 " " h = [authmeth; auth] /\ Py.lower authmeth = "basic" /\
       (is_Ok (Base64.decode (Py.strip auth)) = false \/
        exists cred,
          Base64.decode (Py.strip auth) = Ok cred /\
          Py.contains ":" cred = false)).
Proof.
  split.
  - destruct (META request !! "HTTP_AUTHORIZATION") as [h|] eqn:Hh;
      [|now rewrite basic_not_basic by auto].
    destruct (string_dec h EmptyString) as [->|Hne];
      [now rewrite basic_not_basic by auto|].
    intros Hraise. exists h. split; [reflexivity|]. split; [assumption|].
    destruct (Py.contains " " h) eqn:Hsp; [right|now left].
    destruct (split1_go_present " " EmptyString h Hsp) as (authmeth & auth & Hs).
    exists authmeth, auth. split; [exact Hs|].
    destruct (string_dec (Py.lower authmeth) "basic") as [Hlow|Hlow].
    + split; [exact Hlow|].
      destruct (Base64.decode (Py.strip auth)) as [cred|e] eqn:Hdec;
        [right|now left].
      exists cred. split; [reflexivity|].
      destruct (Py.contains ":" cred) eqn:Hc; [|reflexivity].
      destruct (split1_go_present ":" EmptyString cred Hc)
        as (username & password & Hcred).
      rewrite (basic_parsed self request h authmeth auth cred username
                 password) in Hraise by assumption.
      discriminate.
    + rewrite basic_not_basic in Hraise by eauto 10.
      discriminate.
  - intros (h & Hh & Hne & [Hsp|(authmeth & auth & Hs & Hlow & Hbad)]).
    + now rewrite (basic_header_without_space self request h).
    + unfold HttpBasicAuthentication.is_authenticated, bind, get, lift.
      rewrite Hh. destruct h as [|c h]; [congruence|].
      rewrite Hs. cbn [unpack2]. rewrite Hlow. cbn [String.eqb negb].
      destruct Hbad as [Hdec|(cred & Hdec & Hc)].
      * now destruct (Base64.decode (Py.strip auth)).
      * rewrite Hdec.
        destruct (split1_go_absent ":" EmptyString cred Hc) as [piece Hp].
        unfold Py.split1. now rewrite Hp.
Qed.

(** Whatever the header, nothing of the request changes but
    [request.user]: the request after the call is the request before, or
    that request with another user. *)
Theorem basic_changes_only_user self (request : HttpRequest) :
  snd (HttpBasicAuthentication.is_authenticated self request) = request \/
  exists v,
    snd (HttpBasicAuthentication.is_authenticated self request)
      = set_user v request.
Proof.
  unfold HttpBasicAuthentication.is_authenticated, bind, get, lift, modify.
  destruct (META request !! "HTTP_AUTHORIZATION") as [[|c h]|]; try now left.
  destruct (unpack2 (Py.split1 " " (String c h))) as [[authmeth auth]|e];
    [|now left].
  destruct (negb (String.eqb (Py.lower authmeth) "basic")); [now left|].
  destruct (Base64.decode (Py.strip auth)) as [cred|e]; [|now left].
  destruct (unpack2 (Py.split1 ":" cred)) as [[username password]|e];
    [|now left].
  right. eexists. reflexivity.
Qed.

(** ** Further properties of [OAuthAuthentication] *)

Section MoreAuthenticationTheorems.

Context {oauth_lib : OAuthLib}.

(** Validation reads the request and works on the database: the request
    and the output are as before. *)
Lemma validate_token_keeps_request a b (w : World DB) :
  request (snd (OAuthAuthentication.validate_token a b w)) = request w /\
  stdout (snd (OAuthAuthentication.validate_token a b w)) = stdout w.
Proof.
  unfold OAuthAuthentication.validate_token.
  destruct (initialize_server_request w) as [[[srv oreq]|e] w1] eqn:Hi;
    pose proof (initialize_server_request_pure _ _ _ Hi) as ->.
  - rewrite (bind_Ok _ _ _ _ _ Hi).
    destruct srv as [srv|]; [|now split].
    destruct oreq as [oreq|]; [|now split].
    unfold not_None, bind, ret, on_db.
    now destruct (verify_request srv oreq (db w)).
  - now rewrite (bind_Raise _ _ _ _ _ Hi).
Qed.

(** [is_authenticated] returns [True] only when the request passed the
    pre-check and validation gave a consumer and a token; the user of
    the request is then the user of that token. *)
Theorem oauth_true_only_when_validated self (w : World DB) :
  fst (OAuthAuthentication.is_authenticated self w) = Ok true ->
  OAuthAuthentication.is_valid_request (request w) = true /\
  exists c token parameters w',
    OAuthAuthentication.validate_token true true w
      = (Ok (Some c, Some token, parameters), w') /\
    user (request (snd (OAuthAuthentication.is_authenticated self w)))
      = token_user token.
Proof.
  destruct (OAuthAuthentication.is_valid_request (request w)) eqn:Hv.
  - destruct (OAuthAuthentication.validate_token true true w) as [r w'] eqn:Hr.
    rewrite (oauth_is_authenticated_run self w _ _ Hv Hr).
    destruct r as [[[[c|] [token|]] parameters]|[]]; try discriminate;
      try (destruct (send_oauth_error _); discriminate).
    intros _. split; [reflexivity|]. now exists c, token, parameters, w'.
  - rewrite (oauth_is_authenticated_invalid self w Hv). discriminate.
Qed.

(** Unless it returns [True], [is_authenticated] leaves the request as
    it was; when it returns [True], the request differs in
    [request.user] and [request.throttle_extra] only. *)
Theorem oauth_changes_only_user_and_throttle self (w : World DB) :
  (fst (OAuthAuthentication.is_authenticated self w) = Ok true /\
   exists u x,
     request (snd (OAuthAuthentication.is_authenticated self w))
       = set_throttle_extra x (set_user u (request w))) \/
  request (snd (OAuthAuthentication.is_authenticated self w)) = request w.
Proof.
  destruct (OAuthAuthentication.is_valid_request (request w)) eqn:Hv.
  - destruct (OAuthAuthentication.validate_token true true w) as [r w'] eqn:Hr.
    destruct (validate_token_keeps_request true true w) as [Hreq _].
    rewrite Hr in Hreq. cbn [snd] in Hreq.
    rewrite (oauth_is_authenticated_run self w _ _ Hv Hr).
    destruct r as [[[[c|] [token|]] parameters]|[]]; try (now right);
      try (destruct (send_oauth_error _); now right).
    left. split; [reflexivity|]. eexists _, _. cbn. now rewrite Hreq.
  - right. now rewrite (oauth_is_authenticated_invalid self w Hv).
Qed.

Lemma oauth_is_authenticated_raises self (w : World DB) e w' :
  OAuthAuthentication.is_valid_request (request w) = true ->
  OAuthAuthentication.validate_token true true w = (Raise e, w') ->
  (forall message, e <> OAuthError message) ->
  OAuthAuthentication.is_authenticated self w = (Raise e, w').
Proof.
  intros Hv Hr Hne. rewrite (oauth_is_authenticated_run self w _ _ Hv Hr).
  destruct e; try reflexivity. now destruct (Hne message).
Qed.

(** Only [OAuthError] is caught: any other exception of validation
    leaves [is_authenticated] as it is. *)
Theorem oauth_other_exceptions_propagate self (w : World DB) e w' :
  OAuthAuthentication.is_valid_request (request w) = true ->
  OAuthAuthentication.validate_token true true w = (Raise e, w') ->
  (forall message, e <> OAuthError message) ->
  OAuthAuthentication.is_authenticated self w = (Raise e, w').
Proof. apply oauth_is_authenticated_raises. Qed.

(** [validate_token] does not test the server for [None].  When the
    request passes the pre-check and [from_request] finds no OAuth
    parameter in it, the call of [verify_request] on [None] raises
    [AttributeError], and [is_authenticated] with it. *)
Theorem oauth_no_server_raises self (w : World DB) :
  OAuthAuthentication.is_valid_request (request w) = true ->
  from_request (method (request w)) (absolute_uri (request w))
    (META (request w)) (REQUEST (request w))
    (default EmptyString (environ (request w) !! "QUERY_STRING")) = Ok None ->
  OAuthAuthentication.is_authenticated self w
    = (Raise (AttributeError "verify_request"), w).
Proof.
  intros Hv Hf.
  apply (oauth_is_authenticated_raises self w _ w Hv); [|discriminate].
  unfold OAuthAuthentication.validate_token.
  now rewrite (bind_Ok _ _ _ _ _ (initialize_server_request_None w Hf)).
Qed.

(** Inside [is_authenticated] the request is parsed within the [try]:
    an [OAuthError] of [from_request] is caught there and, when its
    message can be encoded, the answer is [False] and the response
    built for the error is printed; the entry points let the same error
    go on. *)
Theorem oauth_parse_error_is_caught self (w : World DB) message :
  OAuthAuthentication.is_valid_request (request w) = true ->
  from_request (method (request w)) (absolute_uri (request w))
    (META (request w)) (REQUEST (request w))
    (default EmptyString (environ (request w) !! "QUERY_STRING"))
    = Raise (OAuthError message) ->
  encodable message = true ->
  (exists response,
     send_oauth_error message = Ok response /\
     OAuthAuthentication.is_authenticated self w =
       (Ok false,
        {| request := request w; db := db w;
           stdout := stdout w ++ [response] |})) /\
  oauth_request_token w = (Raise (OAuthError message), w).
Proof.
  intros Hv Hf He.
  pose proof (initialize_server_request_Raise w _ Hf) as Hi.
  destruct (send_oauth_error_Ok _ He) as [response Hsend].
  split.
  - exists response. split; [exact Hsend|].
    rewrite (oauth_is_authenticated_run self w (Raise (OAuthError message)) w Hv).
    + now rewrite Hsend.
    + unfold OAuthAuthentication.validate_token.
      now rewrite (bind_Raise _ _ _ _ _ Hi).
  - unfold oauth_request_token. now rewrite (bind_Raise _ _ _ _ _ Hi).
Qed.

Context {site : Site}.

(** The challenge does not use the realm the handler was built with:
    whatever [realm], the status is 401, the header is
    [WWW-Authenticate: OAuth realm="API"] and the body is the template
    [oauth/challenge.html] rendered with [MEDIA_URL]. *)
Theorem oauth_challenge_ignores_realm (realm : option string) :
  status_code (OAuthAuthentication.challenge (OAuthAuthentication.init realm))
    = 401 /\
  headers (OAuthAuthentication.challenge (OAuthAuthentication.init realm))
    !! "WWW-Authenticate"
    = Some ("OAuth realm=" +:+ Py.dquote +:+ "API" +:+ Py.dquote) /\
  content (OAuthAuthentication.challenge (OAuthAuthentication.init realm))
    = render_to_string "oauth/challenge.html"
        {[ "MEDIA_URL" := default EmptyString (settings !! "MEDIA_URL") ]}.
Proof.
  unfold OAuthAuthentication.challenge, OAuthAuthentication.init.
  cbn [OAuthAuthentication.builder].
  unfold set_headers, build_authenticate_header.
  rewrite map_fold_singleton.
  cbn [status_code headers content set_status set_header set_content].
  rewrite lookup_insert_eq. repeat split.
Qed.

End MoreAuthenticationTheorems.

(** ** Further properties of the pre-check *)

Lemma signature_in_signature_method :
  occurs_in "oauth_signature" "oauth_signature_method".
Proof. now exists EmptyString, "_method". Qed.

(** Five names are enough in the header: [oauth_signature] occurs
    wherever [oauth_signature_method] does.  [is_valid_request] holds
    exactly when the five other names occur in the raw header, or all
    six are keys of the combined parameters. *)
Theorem is_valid_request_five_names (request : HttpRequest) :
  OAuthAuthentication.is_valid_request request = true <->
  (forall p,
     In p ["oauth_consumer_key"; "oauth_token"; "oauth_signature_method";
           "oauth_timestamp"; "oauth_nonce"] ->
     occurs_in p (default EmptyString (META request !! "HTTP_AUTHORIZATION")))
  \/
  (forall p, In p OAuthAuthentication.must_have ->
     is_Some (REQUEST request !! p)).
Proof.
  unfold OAuthAuthentication.is_valid_request.
  rewrite orb_true_iff, is_in_str_spec, is_in_dict_spec.
  split; (intros [Hh|Hq]; [left|now right]); intros p Hp.
  - apply Hh. cbn in *. tauto.
  - cbn in Hp.
    destruct Hp as [<-|[<-|[<-|[<-|[<-|[<-|[]]]]]]];
      try (apply Hh; cbn; tauto).
    eapply occurs_in_trans; [apply signature_in_signature_method|].
    apply Hh. cbn. tauto.
Qed.

(** The names may be spread over the body and the query: the combined
    set holds a name as soon as [POST] or [GET] does. *)
Theorem is_valid_request_body_and_query (request : HttpRequest) :
  (forall p, In p OAuthAuthentication.must_have ->
     is_Some (POST request !! p) \/ is_Some (GET request !! p)) ->
  OAuthAuthentication.is_valid_request request = true.
Proof.
  intros Hall. unfold OAuthAuthentication.is_valid_request.
  apply orb_true_iff. right. apply is_in_dict_spec. intros p Hp.
  unfold REQUEST. apply lookup_union_is_Some. auto.
Qed.

(** ** The further properties on concrete requests *)

(** alice with her password. *)
Lemma basic_authenticated_by_auth_func_witness :
  HttpBasicAuthentication.is_authenticated Scenario.basic
    (Scenario.with_header "Basic YWxpY2U6c2VjcmV0" Scenario.blank) =
    (Ok true,
     set_user (PyUser Scenario.alice)
       (Scenario.with_header "Basic YWxpY2U6c2VjcmV0" Scenario.blank)).
Proof.
  apply (basic_authenticated_by_auth_func Scenario.basic _
           "Basic YWxpY2U6c2VjcmV0" "Basic" "YWxpY2U6c2VjcmV0"
           "alice:secret" "alice" "secret");
    first [reflexivity | discriminate].
Defined.

(** bob, whom the table does not know, in capital letters [BASIC]. *)
Lemma basic_django_auth_witness :
  HttpBasicAuthentication.is_authenticated
    (HttpBasicAuthentication.init Scenario.users None None)
    (Scenario.with_header "BASIC Ym9iOnNlY3JldA==" Scenario.blank) =
    (Ok false,
     set_user PyAnonymousUser
       (Scenario.with_header "BASIC Ym9iOnNlY3JldA==" Scenario.blank)).
Proof.
  apply (basic_django_auth Scenario.users None _
           "BASIC Ym9iOnNlY3JldA==" "BASIC" "Ym9iOnNlY3JldA=="
           "bob:secret" "bob" "secret");
    first [reflexivity | discriminate].
Defined.

(** A Digest header. *)
Lemma basic_other_scheme_untouched_witness :
  HttpBasicAuthentication.is_authenticated Scenario.basic
    (Scenario.with_header "Digest username=alice" Scenario.blank) =
    (Ok false, Scenario.with_header "Digest username=alice" Scenario.blank).
Proof.
  apply basic_other_scheme_untouched. right. right.
  exists "Digest username=alice", "Digest", "username=alice".
  repeat split; first [reflexivity | discriminate].
Defined.

(** alice with the password [pa:ss]. *)
Lemma basic_password_with_colons_witness :
  HttpBasicAuthentication.is_authenticated
    (HttpBasicAuthentication.init Cases.colon_users None None)
    (Scenario.with_header "Basic YWxpY2U6cGE6c3M=" Scenario.blank) =
    (Ok true,
     set_user (PyUser Scenario.alice)
       (Scenario.with_header "Basic YWxpY2U6cGE6c3M=" Scenario.blank)).
Proof.
  apply (basic_password_with_colons
           (HttpBasicAuthentication.init Cases.colon_users None None) _
           "Basic YWxpY2U6cGE6c3M=" "Basic" "YWxpY2U6cGE6c3M="
           "alice" "pa:ss");
    first [reflexivity | discriminate].
Defined.

(** A request with no parameter at all, from alice logged in. *)
Lemma missing_parameters_answer_witness :
  fst (oauth_request_token (oauth_lib := Scenario.lib)
         (Scenario.world (set_user (PyUser Scenario.alice) Scenario.blank)))
    = Ok INVALID_PARAMS_RESPONSE /\
  fst (oauth_access_token (oauth_lib := Scenario.lib)
         (Scenario.world (set_user (PyUser Scenario.alice) Scenario.blank)))
    = Ok INVALID_PARAMS_RESPONSE /\
  fst (oauth_user_auth (site := Scenario.site)
         (Scenario.world (set_user (PyUser Scenario.alice) Scenario.blank)))
    = Ok (Some INVALID_PARAMS_RESPONSE).
Proof.
  destruct (missing_parameters_answer (site := Scenario.site)
              (Scenario.world (set_user (PyUser Scenario.alice) Scenario.blank)))
    as (Hrequest & Haccess & Huser & _).
  - vm_compute. reflexivity.
  - split; [exact (f_equal fst Hrequest)|].
    split; [exact (f_equal fst Haccess)|].
    exact (f_equal fst (Huser eq_refl)).
Defined.

(** A header the strict parser finds no parameter in. *)
Lemma parse_errors_escape_witness :
  fst (oauth_request_token (oauth_lib := Cases.strict_lib)
         (Scenario.world (Scenario.with_header "OAuth realm" Scenario.blank)))
    = Raise (OAuthError
               "Unable to parse OAuth parameters from Authorization header.").
Proof.
  destruct (parse_errors_escape
              (site := Cases.plain_site Cases.strict_lib ∅)
              (Scenario.world (Scenario.with_header "OAuth realm" Scenario.blank))
              (OAuthError
                 "Unable to parse OAuth parameters from Authorization header."))
    as (Hrequest & _).
  - vm_compute. reflexivity.
  - exact (f_equal fst Hrequest).
Defined.

(** The request-token call of section 8 when the store is out of
    reach. *)
Lemma other_exceptions_propagate_witness :
  fst (oauth_request_token (oauth_lib := Cases.failing_lib)
         (Scenario.world Scenario.request_token_call))
    = Raise (OtherError "database is down") /\
  fst (oauth_access_token (oauth_lib := Cases.failing_lib)
         (Scenario.world Scenario.request_token_call))
    = Raise (OtherError "database is down").
Proof.
  destruct (other_exceptions_propagate (oauth_lib := Cases.failing_lib)
              (Scenario.world Scenario.request_token_call)
              (Scenario.server_of Scenario.request_token_call)
              (Scenario.oauth_request_of Scenario.request_token_call)
              (Scenario.world Scenario.request_token_call)
              (OtherError "database is down") Scenario.store)
    as (Hrequest & Haccess).
  - vm_compute. reflexivity.
  - discriminate.
  - split.
    + refine (f_equal fst (Hrequest _)). vm_compute. reflexivity.
    + refine (f_equal fst (Haccess _)). vm_compute. reflexivity.
Defined.

(** The exchange of the request token [rt1] once alice authorized it. *)
Lemma access_token_success_witness :
  fst (oauth_access_token (oauth_lib := Scenario.lib)
         (Cases.authorized_world Scenario.access_token_call)) =
    Ok (HttpResponse_new "oauth_token=at0&oauth_token_secret=ats0").
Proof.
  destruct (access_token_success (oauth_lib := Scenario.lib)
              (Cases.authorized_world Scenario.access_token_call)
              (Scenario.server_of Scenario.access_token_call)
              (Scenario.oauth_request_of Scenario.access_token_call)
              (Cases.authorized_world Scenario.access_token_call)
              Cases.at0
              (snd (Reference.fetch_access_token Scenario.hmac_sha1
                      (Scenario.server_of Scenario.access_token_call)
                      (Scenario.oauth_request_of Scenario.access_token_call)
                      Cases.authorized_store)))
    as (Hrun & _).
  - vm_compute. reflexivity.
  - vm_compute. reflexivity.
  - exact (f_equal fst Hrun).
Defined.

(** alice opens the authorization page: GET. *)
Lemma user_auth_get_witness :
  fst (oauth_user_auth (site := Scenario.site)
         (Scenario.world
            (set_user (PyUser Scenario.alice) Scenario.request_token_call)))
    = Ok (Some (oauth_auth_view (oauth_lib := Scenario.lib) Scenario.rt0 None
                  (Reference.get_normalized_parameters
                     (Scenario.oauth_request_of Scenario.request_token_call))))
  /\
  session (request (snd (oauth_user_auth (site := Scenario.site)
            (Scenario.world
               (set_user (PyUser Scenario.alice)
                  Scenario.request_token_call))))) !! "oauth" = Some "rt0".
Proof.
  pose proof (user_auth_get (site := Scenario.site)
               (Scenario.world
                  (set_user (PyUser Scenario.alice) Scenario.request_token_call))
               (Scenario.server_of Scenario.request_token_call)
               (Scenario.oauth_request_of Scenario.request_token_call)
               (Scenario.world
                  (set_user (PyUser Scenario.alice) Scenario.request_token_call))
               Scenario.rt0
               (Scenario.store_after_fetch Scenario.request_token_call)
               (Raise (OAuthError "Parameter not found: oauth_callback"))
               (Scenario.store_after_fetch Scenario.request_token_call))
    as Hrun.
  split.
  - refine (f_equal fst (Hrun _ _ _ _ _)); vm_compute; reflexivity.
  - refine (f_equal (fun p => session (request (snd p)) !! "oauth")
              (Hrun _ _ _ _ _)); vm_compute; reflexivity.
Defined.

(** alice grants access on a request that names a callback. *)
Lemma user_auth_granted_witness :
  exists response,
    fst (oauth_user_auth (site := Scenario.site)
           (Scenario.world
              (Scenario.user_auth_post "rt0" "1"
                 (Some "http://c.example/cb"))))
      = Ok (Some response) /\
    status_code response = 302 /\
    headers response !! "Location" =
      Some (iri_to_uri
              ("http://c.example/cb" +:+ "?" +:+
               to_string (oauth_lib := Scenario.lib)
                 Cases.rt0_authorized true)).
Proof.
  destruct
       (user_auth_granted (site := Scenario.site)
          (Scenario.world
             (Scenario.user_auth_post "rt0" "1" (Some "http://c.example/cb")))
          (Scenario.server_of
             (Scenario.user_auth_post "rt0" "1" (Some "http://c.example/cb")))
          (Scenario.oauth_request_of
             (Scenario.user_auth_post "rt0" "1" (Some "http://c.example/cb")))
          (Scenario.world
             (Scenario.user_auth_post "rt0" "1" (Some "http://c.example/cb")))
          Scenario.rt0
          (Scenario.store_after_fetch
             (Scenario.user_auth_post "rt0" "1" (Some "http://c.example/cb")))
          "http://c.example/cb"
          (Scenario.store_after_fetch
             (Scenario.user_auth_post "rt0" "1" (Some "http://c.example/cb")))
          1 Cases.rt0_authorized
          (snd (Reference.authorize_token
                  (Scenario.server_of
                     (Scenario.user_auth_post "rt0" "1"
                        (Some "http://c.example/cb")))
                  Scenario.rt0 (PyUser Scenario.alice)
                  (Scenario.store_after_fetch
                     (Scenario.user_auth_post "rt0" "1"
                        (Some "http://c.example/cb"))))))
    as (response & Hrun & Hst & Hloc);
    [vm_compute; reflexivity | vm_compute; reflexivity
    | vm_compute; reflexivity | vm_compute; reflexivity
    | discriminate | vm_compute; reflexivity | vm_compute; reflexivity
    | vm_compute; reflexivity | discriminate | vm_compute; reflexivity |].
  exists response.
  split; [exact (f_equal fst Hrun)|]. split; [exact Hst | exact Hloc].
Defined.

(** alice denies access; the request names no callback and the site has
    no [OAUTH_CALLBACK_VIEW]. *)
Lemma user_auth_no_callback_view_witness :
  fst (oauth_user_auth
         (site := Cases.plain_site Scenario.lib ∅)
         (Scenario.world (Scenario.user_auth_post "rt0" "0" None)))
    = Raise (AttributeError "OAUTH_CALLBACK_VIEW").
Proof.
  refine (f_equal fst
    (user_auth_no_callback_view
       (site := Cases.plain_site Scenario.lib ∅)
       (Scenario.world (Scenario.user_auth_post "rt0" "0" None))
       (Scenario.server_of (Scenario.user_auth_post "rt0" "0" None))
       (Scenario.oauth_request_of (Scenario.user_auth_post "rt0" "0" None))
       (Scenario.world (Scenario.user_auth_post "rt0" "0" None))
       Scenario.rt0
       (Scenario.store_after_fetch (Scenario.user_auth_post "rt0" "0" None))
       (Raise (OAuthError "Parameter not found: oauth_callback"))
       (Scenario.store_after_fetch (Scenario.user_auth_post "rt0" "0" None))
       0 Scenario.rt0
       (Scenario.store_after_fetch (Scenario.user_auth_post "rt0" "0" None))
       _ _ _ _ (or_introl eq_refl) _ _ _
       (or_introl (conj eq_refl (conj eq_refl eq_refl))) _));
    vm_compute; reflexivity.
Defined.

(** The form says [yes] where a number is read. *)
Lemma user_auth_bad_authorize_access_witness :
  fst (oauth_user_auth (site := Scenario.site)
         (Scenario.world (Scenario.user_auth_post "rt0" "yes" None)))
    = Raise (ValueError "invalid literal for int()").
Proof.
  refine (f_equal fst
    (user_auth_bad_authorize_access (site := Scenario.site)
       (Scenario.world (Scenario.user_auth_post "rt0" "yes" None))
       (Scenario.server_of (Scenario.user_auth_post "rt0" "yes" None))
       (Scenario.oauth_request_of (Scenario.user_auth_post "rt0" "yes" None))
       (Scenario.world (Scenario.user_auth_post "rt0" "yes" None))
       Scenario.rt0
       (Scenario.store_after_fetch (Scenario.user_auth_post "rt0" "yes" None))
       (Raise (OAuthError "Parameter not found: oauth_callback"))
       (Scenario.store_after_fetch (Scenario.user_auth_post "rt0" "yes" None))
       (ValueError "invalid literal for int()")
       _ _ _ _ _ _ _ _));
    first [vm_compute; reflexivity | discriminate].
Defined.

(** The same form sent with PUT. *)
Lemma user_auth_other_method_witness :
  fst (oauth_user_auth (site := Scenario.site)
         (Scenario.world
            (Cases.with_method "PUT" (Scenario.user_auth_post "rt0" "1" None))))
    = Ok None.
Proof.
  refine (f_equal fst
    (user_auth_other_method (site := Scenario.site)
       (Scenario.world
          (Cases.with_method "PUT" (Scenario.user_auth_post "rt0" "1" None)))
       (Scenario.server_of
          (Cases.with_method "PUT" (Scenario.user_auth_post "rt0" "1" None)))
       (Scenario.oauth_request_of
          (Cases.with_method "PUT" (Scenario.user_auth_post "rt0" "1" None)))
       (Scenario.world
          (Cases.with_method "PUT" (Scenario.user_auth_post "rt0" "1" None)))
       Scenario.rt0
       (Scenario.store_after_fetch
          (Cases.with_method "PUT" (Scenario.user_auth_post "rt0" "1" None)))
       (Raise (OAuthError "Parameter not found: oauth_callback"))
       (Scenario.store_after_fetch
          (Cases.with_method "PUT" (Scenario.user_auth_post "rt0" "1" None)))
       _ _ _ _ _ _));
    first [vm_compute; reflexivity | discriminate].
Defined.

(** The POST of alice once more, on the session the first POST left. *)
Lemma user_auth_post_twice_witness :
  fst (oauth_user_auth (site := Scenario.site)
         (with_request
            (set_session "oauth" EmptyString
               (Scenario.user_auth_post "rt0" "1" None))
            (with_db Scenario.store
               (Scenario.world (Scenario.user_auth_post "rt0" "1" None)))))
    = Ok (Some (HttpResponse_new "Action not allowed.")).
Proof.
  refine (f_equal fst
    (user_auth_post_twice (site := Scenario.site)
       (Scenario.world (Scenario.user_auth_post "rt0" "1" None))
       (Scenario.server_of (Scenario.user_auth_post "rt0" "1" None))
       (Scenario.oauth_request_of (Scenario.user_auth_post "rt0" "1" None))
       (Scenario.world (Scenario.user_auth_post "rt0" "1" None))
       Scenario.store Scenario.rt0
       (Scenario.store_after_fetch (Scenario.user_auth_post "rt0" "1" None))
       (Raise (OAuthError "Parameter not found: oauth_callback"))
       (Scenario.store_after_fetch (Scenario.user_auth_post "rt0" "1" None))
       _ _ _ _ _ _));
    first [vm_compute; reflexivity | discriminate].
Defined.

(** The API call signed with the access token [at1]. *)
Lemma oauth_true_only_when_validated_witness :
  OAuthAuthentication.is_valid_request Scenario.api_call = true /\
  exists c token parameters w',
    OAuthAuthentication.validate_token (oauth_lib := Scenario.lib) true true
      (Scenario.world Scenario.api_call)
      = (Ok (Some c, Some token, parameters), w') /\
    user (request (snd (OAuthAuthentication.is_authenticated
                          (oauth_lib := Scenario.lib)
                          (OAuthAuthentication.init None)
                          (Scenario.world Scenario.api_call))))
      = token_user token.
Proof.
  apply (oauth_true_only_when_validated (oauth_lib := Scenario.lib)
           (OAuthAuthentication.init None) (Scenario.world Scenario.api_call)).
  vm_compute. reflexivity.
Defined.

(** The same call when the store is out of reach. *)
Lemma oauth_other_exceptions_propagate_witness :
  fst (OAuthAuthentication.is_authenticated (oauth_lib := Cases.failing_lib)
         (OAuthAuthentication.init None) (Scenario.world Scenario.api_call))
    = Raise (OtherError "database is down").
Proof.
  refine (f_equal fst
    (oauth_other_exceptions_propagate (oauth_lib := Cases.failing_lib)
       (OAuthAuthentication.init None) (Scenario.world Scenario.api_call)
       (OtherError "database is down") (Scenario.world Scenario.api_call)
       _ _ _));
    first [vm_compute; reflexivity | discriminate].
Defined.

(** A header that holds the names and nothing a parser reads. *)
Lemma oauth_no_server_raises_witness :
  fst (OAuthAuthentication.is_authenticated (oauth_lib := Scenario.lib)
         (OAuthAuthentication.init None)
         (Scenario.world
            (Scenario.with_header Cases.names_only_header Scenario.blank)))
    = Raise (AttributeError "verify_request").
Proof.
  refine (f_equal fst
    (oauth_no_server_raises (oauth_lib := Scenario.lib)
       (OAuthAuthentication.init None)
       (Scenario.world
          (Scenario.with_header Cases.names_only_header Scenario.blank))
       _ _));
    vm_compute; reflexivity.
Defined.

(** The same header under the strict parser. *)
Lemma oauth_parse_error_is_caught_witness :
  fst (OAuthAuthentication.is_authenticated (oauth_lib := Cases.strict_lib)
         (OAuthAuthentication.init None)
         (Scenario.world
            (Scenario.with_header Cases.names_only_header Scenario.blank)))
    = Ok false /\
  fst (oauth_request_token (oauth_lib := Cases.strict_lib)
         (Scenario.world
            (Scenario.with_header Cases.names_only_header Scenario.blank)))
    = Raise (OAuthError
               "Unable to parse OAuth parameters from Authorization header.").
Proof.
  destruct (oauth_parse_error_is_caught (oauth_lib := Cases.strict_lib)
              (OAuthAuthentication.init None)
              (Scenario.world
                 (Scenario.with_header Cases.names_only_header Scenario.blank))
              (Str "Unable to parse OAuth parameters from Authorization header."))
    as [(response & _ & Hauth) Hrequest].
  - vm_compute. reflexivity.
  - vm_compute. reflexivity.
  - reflexivity.
  - split; [exact (f_equal fst Hauth) | exact (f_equal fst Hrequest)].
Defined.

(** Three names in the body and three in the query. *)
Lemma is_valid_request_body_and_query_witness :
  OAuthAuthentication.is_valid_request Cases.body_and_query_call = true.
Proof.
  apply is_valid_request_body_and_query.
  intros p Hp. cbn in Hp.
  destruct Hp as [<-|[<-|[<-|[<-|[<-|[<-|[]]]]]]];
    first [left; vm_compute; eauto; fail | right; vm_compute; eauto].
Defined.
